(** * DevGotchi: the avatar state engine of [out/extension.js]

    A shallow embedding of the [DeveloperManager] class of the compiled
    extension (the bundled variant, which carries skills, inventory, quests
    and the daily bonus), and the properties of its state-update rules.

    Modelling conventions.
    - JavaScript numbers that can take fractional values (the four stats,
      quest progress, XP amounts before [Math.floor]) are exact rationals
      [Q]: the arithmetic is that of the formulas, without the rounding of
      doubles, and equalities between such numbers are stated with [==].
      Numbers that the code only ever moves by whole amounts (xp, level,
      coffee, streak, time stamps in milliseconds, error counts) are
      integers [Z].
    - A field that an object may lack is an [option]; [None] is JavaScript's
      [undefined].
    - What a handler reads from outside during one call (the clock, the
      local hour, the outcome of the random shuffle) is passed in a [World]
      record.  A call runs to completion within one reading of the clock:
      every [Date.now()] of one call is the same [now].
    - Notifications, status-bar messages, the text of result messages and
      the write to the persistent store are presentation or I/O and are
      left out; results keep their [success] flag. *)

From Stdlib Require Import ZArith QArith Qround Qminmax List String Bool.
From Stdlib Require Import Lia Lqa Permutation.
From Equations Require Import Equations.
Import ListNotations.

Open Scope string_scope.
Open Scope list_scope.
Open Scope Z_scope.
Open Scope Q_scope.

(** ** JavaScript helpers *)

(** [x < y] on numbers, as a boolean. *)
Definition Qlt_bool (x y : Q) : bool := negb (Qle_bool y x).

(** [arr.includes(s)] on an array of strings. *)
Definition includes (arr : list string) (s : string) : bool :=
  existsb (String.eqb s) arr.

(** [n || 0] on a number. *)
Definition or0 (n : Z) : Z := if (n =? 0)%Z then 0%Z else n.

(** [n || 0] on a number that may be [undefined]. *)
Definition or0_opt (n : option Z) : Z :=
  match n with Some v => or0 v | None => 0%Z end.

(** Truthiness of a boolean that may be [undefined]. *)
Definition truthy (b : option bool) : bool :=
  match b with Some v => v | None => false end.

(** ** Data model *)

Inductive Mood : Type :=
| productive | neutral | stressed | tired | burnt_out | caffeinated | sleeping.

Inductive QuestType : Type := QSave | QCommit | QFix | QTime.

Definition QuestType_eqb (a b : QuestType) : bool :=
  match a, b with
  | QSave, QSave | QCommit, QCommit | QFix, QFix | QTime, QTime => true
  | _, _ => false
  end.

(** A quest.  The id [`quest_${Date.now()}_${i}`] is kept as the pair of the
    clock reading and the index. *)
Record Quest : Type := mkQuest {
  q_id : Z * nat;
  q_description : string;
  q_type : QuestType;
  q_target : Q;
  q_progress : Q;
  q_reward : Z;
  q_completed : bool
}.

(** The avatar record [this.developer]. *)
Record Developer : Type := mkDeveloper {
  energy : Q;
  motivation : Q;
  focus : Q;
  health : Q;
  xp : Z;
  level : Z;
  lastUpdated : Z;
  mood : Mood;
  role : string;
  name : string;
  coffee : Z;
  skills : list string;
  inventory : list string;
  lastDailyBonus : Z;
  streak : Z;
  quests : list Quest;
  questStreak : option Z;
  dailyQuestsCompleted : option bool;
  tutorialCompleted : option bool
}.

(** The engine object: the avatar and the last reported error count. *)
Record Manager : Type := mkManager {
  developer : Developer;
  lastErrorCount : Z
}.

(** An entry of the [templates] array of [generateDailyQuests]. *)
Record QuestTemplate : Type := mkTemplate {
  t_type : QuestType;
  t_desc : string;
  t_target : Q;
  t_reward : Z
}.

(** What one call observes of the outside: [Date.now()], the local hour
    [new Date().getHours()], and the array that
    [templates.sort(() => 0.5 - Math.random())] leaves behind. *)
Record World : Type := mkWorld {
  now : Z;
  hour : Z;
  shuffled : list QuestTemplate
}.

(** Result of an action: the [success] flag of [{success, message}]. *)
Record Result : Type := mkResult { success : bool }.

(** ** Field updates *)

Definition set_energy (v : Q) (d : Developer) : Developer :=
  mkDeveloper v (motivation d) (focus d) (health d) (xp d) (level d) (lastUpdated d)
    (mood d) (role d) (name d) (coffee d) (skills d) (inventory d)
    (lastDailyBonus d) (streak d) (quests d) (questStreak d) (dailyQuestsCompleted d) (tutorialCompleted d).

Definition set_motivation (v : Q) (d : Developer) : Developer :=
  mkDeveloper (energy d) v (focus d) (health d) (xp d) (level d) (lastUpdated d)
    (mood d) (role d) (name d) (coffee d) (skills d) (inventory d)
    (lastDailyBonus d) (streak d) (quests d) (questStreak d) (dailyQuestsCompleted d) (tutorialCompleted d).

Definition set_focus (v : Q) (d : Developer) : Developer :=
  mkDeveloper (energy d) (motivation d) v (health d) (xp d) (level d) (lastUpdated d)
    (mood d) (role d) (name d) (coffee d) (skills d) (inventory d)
    (lastDailyBonus d) (streak d) (quests d) (questStreak d) (dailyQuestsCompleted d) (tutorialCompleted d).

Definition set_health (v : Q) (d : Developer) : Developer :=
  mkDeveloper (energy d) (motivation d) (focus d) v (xp d) (level d) (lastUpdated d)
    (mood d) (role d) (name d) (coffee d) (skills d) (inventory d)
    (lastDailyBonus d) (streak d) (quests d) (questStreak d) (dailyQuestsCompleted d) (tutorialCompleted d).

Definition set_xp (v : Z) (d : Developer) : Developer :=
  mkDeveloper (energy d) (motivation d) (focus d) (health d) v (level d) (lastUpdated d)
    (mood d) (role d) (name d) (coffee d) (skills d) (inventory d)
    (lastDailyBonus d) (streak d) (quests d) (questStreak d) (dailyQuestsCompleted d) (tutorialCompleted d).

Definition set_level (v : Z) (d : Developer) : Developer :=
  mkDeveloper (energy d) (motivation d) (focus d) (health d) (xp d) v (lastUpdated d)
    (mood d) (role d) (name d) (coffee d) (skills d) (inventory d)
    (lastDailyBonus d) (streak d) (quests d) (questStreak d) (dailyQuestsCompleted d) (tutorialCompleted d).

Definition set_lastUpdated (v : Z) (d : Developer) : Developer :=
  mkDeveloper (energy d) (motivation d) (focus d) (health d) (xp d) (level d) v
    (mood d) (role d) (name d) (coffee d) (skills d) (inventory d)
    (lastDailyBonus d) (streak d) (quests d) (questStreak d) (dailyQuestsCompleted d) (tutorialCompleted d).

Definition set_mood (v : Mood) (d : Developer) : Developer :=
  mkDeveloper (energy d) (motivation d) (focus d) (health d) (xp d) (level d) (lastUpdated d)
    v (role d) (name d) (coffee d) (skills d) (inventory d)
    (lastDailyBonus d) (streak d) (quests d) (questStreak d) (dailyQuestsCompleted d) (tutorialCompleted d).

Definition set_role (v : string) (d : Developer) : Developer :=
  mkDeveloper (energy d) (motivation d) (focus d) (health d) (xp d) (level d) (lastUpdated d)
    (mood d) v (name d) (coffee d) (skills d) (inventory d)
    (lastDailyBonus d) (streak d) (quests d) (questStreak d) (dailyQuestsCompleted d) (tutorialCompleted d).

Definition set_name (v : string) (d : Developer) : Developer :=
  mkDeveloper (energy d) (motivation d) (focus d) (health d) (xp d) (level d) (lastUpdated d)
    (mood d) (role d) v (coffee d) (skills d) (inventory d)
    (lastDailyBonus d) (streak d) (quests d) (questStreak d) (dailyQuestsCompleted d) (tutorialCompleted d).

Definition set_coffee (v : Z) (d : Developer) : Developer :=
  mkDeveloper (energy d) (motivation d) (focus d) (health d) (xp d) (level d) (lastUpdated d)
    (mood d) (role d) (name d) v (skills d) (inventory d)
    (lastDailyBonus d) (streak d) (quests d) (questStreak d) (dailyQuestsCompleted d) (tutorialCompleted d).

Definition set_skills (v : list string) (d : Developer) : Developer :=
  mkDeveloper (energy d) (motivation d) (focus d) (health d) (xp d) (level d) (lastUpdated d)
    (mood d) (role d) (name d) (coffee d) v (inventory d)
    (lastDailyBonus d) (streak d) (quests d) (questStreak d) (dailyQuestsCompleted d) (tutorialCompleted d).

Definition set_inventory (v : list string) (d : Developer) : Developer :=
  mkDeveloper (energy d) (motivation d) (focus d) (health d) (xp d) (level d) (lastUpdated d)
    (mood d) (role d) (name d) (coffee d) (skills d) v
    (lastDailyBonus d) (streak d) (quests d) (questStreak d) (dailyQuestsCompleted d) (tutorialCompleted d).

Definition set_lastDailyBonus (v : Z) (d : Developer) : Developer :=
  mkDeveloper (energy d) (motivation d) (focus d) (health d) (xp d) (level d) (lastUpdated d)
    (mood d) (role d) (name d) (coffee d) (skills d) (inventory d)
    v (streak d) (quests d) (questStreak d) (dailyQuestsCompleted d) (tutorialCompleted d).

Definition set_streak (v : Z) (d : Developer) : Developer :=
  mkDeveloper (energy d) (motivation d) (focus d) (health d) (xp d) (level d) (lastUpdated d)
    (mood d) (role d) (name d) (coffee d) (skills d) (inventory d)
    (lastDailyBonus d) v (quests d) (questStreak d) (dailyQuestsCompleted d) (tutorialCompleted d).

Definition set_quests (v : list Quest) (d : Developer) : Developer :=
  mkDeveloper (energy d) (motivation d) (focus d) (health d) (xp d) (level d) (lastUpdated d)
    (mood d) (role d) (name d) (coffee d) (skills d) (inventory d)
    (lastDailyBonus d) (streak d) v (questStreak d) (dailyQuestsCompleted d) (tutorialCompleted d).

Definition set_questStreak (v : option Z) (d : Developer) : Developer :=
  mkDeveloper (energy d) (motivation d) (focus d) (health d) (xp d) (level d) (lastUpdated d)
    (mood d) (role d) (name d) (coffee d) (skills d) (inventory d)
    (lastDailyBonus d) (streak d) (quests d) v (dailyQuestsCompleted d) (tutorialCompleted d).

Definition set_dailyQuestsCompleted (v : option bool) (d : Developer) : Developer :=
  mkDeveloper (energy d) (motivation d) (focus d) (health d) (xp d) (level d) (lastUpdated d)
    (mood d) (role d) (name d) (coffee d) (skills d) (inventory d)
    (lastDailyBonus d) (streak d) (quests d) (questStreak d) v (tutorialCompleted d).

Definition set_tutorialCompleted (v : option bool) (d : Developer) : Developer :=
  mkDeveloper (energy d) (motivation d) (focus d) (health d) (xp d) (level d) (lastUpdated d)
    (mood d) (role d) (name d) (coffee d) (skills d) (inventory d)
    (lastDailyBonus d) (streak d) (quests d) (questStreak d) (dailyQuestsCompleted d) v.

Definition set_developer (d : Developer) (m : Manager) : Manager :=
  mkManager d (lastErrorCount m).

(** ** Static catalogs *)

Record Skill : Type := mkSkill {
  sk_id : string;
  sk_name : string;
  sk_cost : Z
}.

Definition SKILLS : list Skill :=
  [ mkSkill "caffeine_tolerance" "Caffeine Tolerance" 50;
    mkSkill "iron_focus" "Iron Focus" 75;
    mkSkill "bug_slayer" "Bug Slayer" 100 ].

Inductive ItemType : Type := skin | furniture | accessory.

Record ShopItem : Type := mkItem {
  it_id : string;
  it_name : string;
  it_type : ItemType;
  it_cost : Z;
  it_emoji : option string
}.

Definition SHOP_ITEMS : list ShopItem :=
  [ mkItem "skin_suit" "Business Suit" skin 150 (Some "🕴️");
    mkItem "skin_space" "Space Suit" skin 300 (Some "👨‍🚀");
    mkItem "furn_chair" "Ergo Chair" furniture 200 None;
    mkItem "acc_keyboard" "Mech Keyboard" accessory 250 None ].

(** The eight quest templates of [generateDailyQuests]. *)
Definition templates : list QuestTemplate :=
  [ mkTemplate QSave "Save Master: Save 30 files" 30 15;
    mkTemplate QSave "Typing Machine: Save 50 files" 50 25;
    mkTemplate QCommit "Committer: Push 2 commits" 2 30;
    mkTemplate QCommit "Ship It: Push 5 commits" 5 60;
    mkTemplate QFix "Bug Zapper: Fix 3 errors" 3 20;
    mkTemplate QFix "Quality Control: Fix 10 errors" 10 50;
    mkTemplate QTime "Deep Work: Code for 30 minutes" 30 20;
    mkTemplate QTime "Marathon: Code for 60 minutes" 60 45 ].

(** A world whose shuffle is a reordering of the catalog, which is all a
    sort can do to the array. *)
Definition fair (w : World) : Prop := Permutation templates (shuffled w).

(** ** Loading *)

(** The persisted blob.  Saves written before a field was introduced lack
    it; the eleven original fields are always there. *)
Record SavedState : Type := mkSaved {
  sv_energy : Q;
  sv_motivation : Q;
  sv_focus : Q;
  sv_health : Q;
  sv_xp : Z;
  sv_level : Z;
  sv_lastUpdated : Z;
  sv_mood : Mood;
  sv_role : string;
  sv_name : string;
  sv_coffee : Z;
  sv_skills : option (list string);
  sv_inventory : option (list string);
  sv_lastDailyBonus : option Z;
  sv_streak : option Z;
  sv_quests : option (list Quest);
  sv_questStreak : option Z;
  sv_dailyQuestsCompleted : option bool;
  sv_tutorialCompleted : option bool
}.

(** The record literal returned by [loadDeveloper] when nothing is saved. *)
Definition defaultDeveloper (w : World) : Developer :=
  {| energy := 100; motivation := 100; focus := 100; health := 100;
     xp := 0; level := 1; lastUpdated := now w; mood := productive;
     role := "👨‍💻"; name := "Dev"; coffee := 50;
     skills := []; inventory := []; lastDailyBonus := 0; streak := 0;
     quests := []; questStreak := Some 0%Z;
     dailyQuestsCompleted := Some false; tutorialCompleted := Some false |}.

(** [if (!saved.f) saved.f = dflt] for an array field: an array, even an
    empty one, is truthy. *)
Definition backfill_array {A} (f : option (list A)) : list A :=
  match f with Some l => l | None => [] end.

(** [if (!saved.f) saved.f = 0] for a number: [0] is falsy as well. *)
Definition backfill_number (f : option Z) : Z :=
  match f with
  | Some n => if (n =? 0)%Z then 0%Z else n
  | None => 0%Z
  end.

(** [if (saved.f === undefined) saved.f = dflt]. *)
Definition backfill_undefined {A} (dflt : A) (f : option A) : option A :=
  match f with Some v => Some v | None => Some dflt end.

Definition loadDeveloper (w : World) (saved : option SavedState) : Developer :=
  match saved with
  | Some s =>
      {| energy := sv_energy s; motivation := sv_motivation s;
         focus := sv_focus s; health := sv_health s;
         xp := sv_xp s; level := sv_level s;
         lastUpdated := sv_lastUpdated s; mood := sv_mood s;
         role := sv_role s; name := sv_name s; coffee := sv_coffee s;
         skills := backfill_array (sv_skills s);
         inventory := backfill_array (sv_inventory s);
         lastDailyBonus := backfill_number (sv_lastDailyBonus s);
         streak := backfill_number (sv_streak s);
         quests := backfill_array (sv_quests s);
         questStreak := backfill_undefined 0%Z (sv_questStreak s);
         dailyQuestsCompleted :=
           backfill_undefined false (sv_dailyQuestsCompleted s);
         tutorialCompleted :=
           backfill_undefined false (sv_tutorialCompleted s) |}
  | None => defaultDeveloper w
  end.

(** ** XP and levelling *)

(** The [while (xp >= xpNeeded)] loop of [addXP] on the pair (xp, level).
    The measure shows that it stops from every pair of integers. *)
Definition levelUp_measure (x l : Z) : nat :=
  Z.to_nat (if (l <=? -1)%Z then x + 50 * l * (l - 1) + 1 - l
            else x - 100 * l + 1)%Z.

Equations? levelUp (x l : Z) : Z * Z by wf (levelUp_measure x l) lt :=
  levelUp x l with Z_ge_lt_dec x (l * 100) => {
    | left _ := levelUp (x - l * 100) (l + 1);
    | right _ := (x, l) }.
Proof.
  unfold levelUp_measure.
  destruct (Z.leb_spec l (-1)); destruct (Z.leb_spec (l + 1) (-1));
    try lia; nia.
Qed.

(** The momentum multiplier of [addXP]. *)
Definition xpGain (amount : Q) (d : Developer) : Z :=
  Qfloor (amount * (1 + energy d / 100) * (1 + focus d / 100)
                 * (1 + motivation d / 100)).

Definition addXP (amount : Q) (d : Developer) : Developer :=
  let r := levelUp (xp d + xpGain amount d)%Z (level d) in
  set_xp (fst r) (set_level (snd r) d).

(** ** Quests *)

Definition set_q_progress (p : Q) (q : Quest) : Quest :=
  mkQuest (q_id q) (q_description q) (q_type q) (q_target q) p
          (q_reward q) (q_completed q).

Definition set_q_completed (b : bool) (q : Quest) : Quest :=
  mkQuest (q_id q) (q_description q) (q_type q) (q_target q) (q_progress q)
          (q_reward q) b.

(** The [forEach] of [updateQuestProgress]: the quests in order, threading
    the coffee balance that a completed quest pays into. *)
Fixpoint forEachQuest (ty : QuestType) (amount : Q) (qs : list Quest)
    (c : Z) : list Quest * Z :=
  match qs with
  | [] => ([], c)
  | q :: rest =>
      if QuestType_eqb (q_type q) ty && negb (q_completed q) then
        let p := q_progress q + amount in
        if Qle_bool (q_target q) p then
          let r := forEachQuest ty amount rest (c + q_reward q)%Z in
          (set_q_completed true (set_q_progress (q_target q) q) :: fst r,
           snd r)
        else
          let r := forEachQuest ty amount rest c in
          (set_q_progress p q :: fst r, snd r)
      else
        let r := forEachQuest ty amount rest c in
        (q :: fst r, snd r)
  end.

Definition updateQuestProgress (ty : QuestType) (amount : Q)
    (d : Developer) : Developer :=
  let r := forEachQuest ty amount (quests d) (coffee d) in
  let d := set_coffee (snd r) (set_quests (fst r) d) in
  if negb (truthy (dailyQuestsCompleted d))
     && (0 <? List.length (quests d))%nat
     && forallb q_completed (quests d)
  then
    let d := set_dailyQuestsCompleted (Some true) d in
    let n := (or0_opt (questStreak d) + 1)%Z in
    let d := set_questStreak (Some n) d in
    let bonus := (50 + n * 10)%Z in
    set_coffee (coffee d + bonus)%Z d
  else d.

(** [shuffled.map((t, i) => ...)], from index [i] on. *)
Fixpoint questsOf (stamp : Z) (i : nat) (ts : list QuestTemplate)
    : list Quest :=
  match ts with
  | [] => []
  | t :: rest =>
      mkQuest (stamp, i) (t_desc t) (t_type t) (t_target t) 0 (t_reward t)
              false
      :: questsOf stamp (S i) rest
  end.

Definition generateDailyQuests (w : World) (d : Developer) : Developer :=
  let d := if (streak d =? 1)%Z || negb (truthy (dailyQuestsCompleted d))
           then set_questStreak (Some 0%Z) d else d in
  let d := set_dailyQuestsCompleted (Some false) d in
  set_quests (questsOf (now w) 0 (firstn 3 (shuffled w))) d.

(** ** Daily bonus *)

Definition oneDay : Z := 24 * 60 * 60 * 1000.
Definition twoDays : Z := 48 * 60 * 60 * 1000.

Definition checkDailyBonus (w : World) (d : Developer) : Developer :=
  let lastBonus := or0 (lastDailyBonus d) in
  if (oneDay <=? now w - lastBonus)%Z then
    let d :=
      if (0 <? lastBonus)%Z && (now w - lastBonus <? twoDays)%Z
      then set_streak (or0 (streak d) + 1)%Z d
      else set_streak 1%Z d in
    let bonus := (20 + streak d * 5)%Z in
    let d := set_coffee (coffee d + bonus)%Z d in
    let d := set_lastDailyBonus (now w) d in
    generateDailyQuests w d
  else d.

(** ** The tick: [updateStats] *)

Definition calculateMood (w : World) (d : Developer) : Mood :=
  if (22 <=? hour w)%Z || (hour w <? 6)%Z then sleeping
  else if Qlt_bool (health d) 30 then burnt_out
  else if Qlt_bool (energy d) 30 then tired
  else if Qlt_bool (focus d) 30 then stressed
  else if (80 <? coffee d)%Z then caffeinated
  else if Qlt_bool 70 (motivation d) then productive
  else neutral.

Definition hoursPassed (w : World) (d : Developer) : Q :=
  inject_Z (now w - lastUpdated d) / inject_Z (1000 * 60 * 60).

(** The decay of the three stats and the linter stress, the first part of
    [updateStats]. *)
Definition decayStats (h : Q) (errors : Z) (d : Developer) : Developer :=
  let energyDecay :=
    if includes (inventory d) "furn_chair" then 4 * 0.85 else 4 in
  let motivationDecay :=
    if includes (inventory d) "acc_keyboard" then 2 * 0.85 else 2 in
  let d := set_energy (Qmax 0 (energy d - h * energyDecay)) d in
  let d := set_motivation (Qmax 0 (motivation d - h * motivationDecay)) d in
  let focusDecay := if includes (skills d) "iron_focus" then 2.1 else 3 in
  let d := set_focus (Qmax 0 (focus d - h * focusDecay)) d in
  if (0 <? errors)%Z then
    let stressFactor := inject_Z errors * 0.05 in
    let d := set_energy (Qmax 0 (energy d - stressFactor)) d in
    set_motivation (Qmax 0 (motivation d - stressFactor)) d
  else d.

(** Active coding time counts towards the time quests when the gap is
    under five minutes. *)
Definition trackCodingTime (h : Q) (d : Developer) : Developer :=
  if Qlt_bool h 0.083 then updateQuestProgress QTime (h * 60) d else d.

(** The state on which [updateStats] calls [checkDailyBonus]. *)
Definition beforeDailyBonus (w : World) (m : Manager) : Developer :=
  let h := hoursPassed w (developer m) in
  trackCodingTime h (decayStats h (lastErrorCount m) (developer m)).

(** Health, mood and the watermark, the last part of [updateStats]. *)
Definition deriveStats (w : World) (d : Developer) : Developer :=
  let d := set_health ((energy d + motivation d + focus d) / 3) d in
  let d := set_mood (calculateMood w d) d in
  set_lastUpdated (now w) d.

Definition updateStats (w : World) (m : Manager) : Manager :=
  let d := beforeDailyBonus w m in
  let d := checkDailyBonus w d in
  set_developer (deriveStats w d) m.

(** The constructor: load, then tick. *)
Definition newManager (w : World) (saved : option SavedState) : Manager :=
  updateStats w (mkManager (loadDeveloper w saved) 0).

(** ** Reset *)

(** The record literal that [resetProgress] assigns.  It has no
    [questStreak], [dailyQuestsCompleted] or [tutorialCompleted]. *)
Definition resetRecord (w : World) : Developer :=
  {| energy := 100; motivation := 100; focus := 100; health := 100;
     xp := 0; level := 1; lastUpdated := now w; mood := productive;
     role := "👨‍💻"; name := "Dev"; coffee := 50;
     skills := []; inventory := []; lastDailyBonus := 0; streak := 0;
     quests := []; questStreak := None;
     dailyQuestsCompleted := None; tutorialCompleted := None |}.

(** [confirmed] is [selection === 'Yes']. *)
Definition resetProgress (w : World) (confirmed : bool) (m : Manager)
    : Manager :=
  if confirmed then updateStats w (set_developer (resetRecord w) m) else m.

(** ** Actions and events *)

Definition giveCoffee (m : Manager) : Manager * Result :=
  let d := developer m in
  if (coffee d <? 10)%Z then (m, mkResult false)
  else
    let d := set_coffee (coffee d - 10)%Z d in
    let energyBoost :=
      if includes (skills d) "caffeine_tolerance" then 52 else 35 in
    let d := set_energy (Qmin 100 (energy d + energyBoost)) d in
    let d := set_focus (Qmin 100 (focus d + 20)) d in
    let d := set_motivation (Qmin 100 (motivation d + 10)) d in
    let d := addXP 5 d in
    (set_developer d m, mkResult true).

(** The XP amount of [takeBreak], from the stats before the break. *)
Definition breakXP (d : Developer) : Z :=
  Qfloor (Qmax 5 (Qmax (5 * (100 - energy d) / 40)
                       (5 * (100 - motivation d) / 15))).

Definition takeBreak (m : Manager) : Manager * Result :=
  let d := developer m in
  if Qeq_bool (energy d) 100 && Qeq_bool (motivation d) 100
  then (m, mkResult false)
  else
    let d := addXP (inject_Z (breakXP d)) d in
    let d := set_energy (Qmin 100 (energy d + 40)) d in
    let d := set_motivation (Qmin 100 (motivation d + 15)) d in
    let d := set_focus (Qmax 0 (focus d - 5)) d in
    (set_developer d m, mkResult true).

Definition onCodeSaved (m : Manager) : Manager :=
  let d := developer m in
  let d := set_motivation (Qmin 100 (motivation d + 3)) d in
  let d := set_coffee (coffee d + 1)%Z d in
  let d := addXP 3 d in
  let d := updateQuestProgress QSave 1 d in
  set_developer d m.

Definition onGitCommit (m : Manager) : Manager :=
  let d := developer m in
  let d := set_motivation (Qmin 100 (motivation d + 20)) d in
  let d := set_coffee (coffee d + 5)%Z d in
  let d := addXP 50 d in
  let d := updateQuestProgress QCommit 1 d in
  set_developer d m.

Definition setInitialErrorCount (count : Z) (m : Manager) : Manager :=
  mkManager (developer m) count.

Definition updateErrorCount (currentErrors : Z) (m : Manager) : Manager :=
  let d := developer m in
  let diff := (currentErrors - lastErrorCount m)%Z in
  let d :=
    if (diff <? 0)%Z then
      let fixed := Z.abs diff in
      let xpMult := if includes (skills d) "bug_slayer" then 2%Z else 1%Z in
      let d := addXP (inject_Z (fixed * 5 * xpMult)) d in
      let d := set_motivation (Qmin 100 (motivation d + inject_Z fixed)) d in
      updateQuestProgress QFix (inject_Z fixed) d
    else if (0 <? diff)%Z then
      set_focus (Qmax 0 (focus d - inject_Z diff * 0.5)) d
    else d in
  mkManager d currentErrors.

Definition completeTutorial (m : Manager) : Manager :=
  set_developer (set_tutorialCompleted (Some true) (developer m)) m.

Definition unlockSkill (skillId : string) (m : Manager) : Manager * Result :=
  let d := developer m in
  match find (fun s => String.eqb (sk_id s) skillId) SKILLS with
  | None => (m, mkResult false)
  | Some skill =>
      if includes (skills d) skillId then (m, mkResult false)
      else if (coffee d <? sk_cost skill)%Z then (m, mkResult false)
      else
        let d := set_coffee (coffee d - sk_cost skill)%Z d in
        let d := set_skills (skills d ++ [skillId]) d in
        (set_developer d m, mkResult true)
  end.

Definition buyItem (itemId : string) (m : Manager) : Manager * Result :=
  let d := developer m in
  match find (fun i => String.eqb (it_id i) itemId) SHOP_ITEMS with
  | None => (m, mkResult false)
  | Some item =>
      if includes (inventory d) itemId then (m, mkResult false)
      else if (coffee d <? it_cost item)%Z then (m, mkResult false)
      else
        let d := set_coffee (coffee d - it_cost item)%Z d in
        let d := set_inventory (inventory d ++ [itemId]) d in
        let d :=
          match it_type item, it_emoji item with
          | skin, Some e => set_role e d
          | _, _ => d
          end in
        (set_developer d m, mkResult true)
  end.

Definition equipItem (itemId : string) (m : Manager) : Manager * Result :=
  let d := developer m in
  match find (fun i => String.eqb (it_id i) itemId) SHOP_ITEMS with
  | None => (m, mkResult false)
  | Some item =>
      if negb (includes (inventory d) itemId) then (m, mkResult false)
      else
        match it_type item, it_emoji item with
        | skin, Some e => (set_developer (set_role e d) m, mkResult true)
        | _, _ => (m, mkResult false)
        end
  end.

(** The argument that [challengeCompleted] hands to [addXP]. *)
Definition challengeRawXP (score : Q) : Q :=
  score + score * score / 100 + score * score * score / 100000.

Definition challengeCompleted (score : Q) (m : Manager) : Manager * Z :=
  let d := developer m in
  let coffeeEarned := Qfloor (score / 10) in
  let d := set_coffee (coffee d + coffeeEarned)%Z d in
  let d := set_motivation (Qmin 100 (motivation d + 20)) d in
  let d := addXP (challengeRawXP score) d in
  (set_developer d m, coffeeEarned).

Definition renameDeveloper (newName : string) (m : Manager)
    : Manager * Result :=
  (set_developer (set_name newName (developer m)) m, mkResult true).

(** ** The entry points as one transition function *)

Inductive Op : Type :=
| OpTick
| OpReset (confirmed : bool)
| OpGiveCoffee
| OpTakeBreak
| OpCodeSaved
| OpGitCommit
| OpSetInitialErrorCount (count : Z)
| OpUpdateErrorCount (currentErrors : Z)
| OpCompleteTutorial
| OpUnlockSkill (skillId : string)
| OpBuyItem (itemId : string)
| OpEquipItem (itemId : string)
| OpChallengeCompleted (score : Q)
| OpRename (newName : string).

Definition step (w : World) (o : Op) (m : Manager) : Manager :=
  match o with
  | OpTick => updateStats w m
  | OpReset c => resetProgress w c m
  | OpGiveCoffee => fst (giveCoffee m)
  | OpTakeBreak => fst (takeBreak m)
  | OpCodeSaved => onCodeSaved m
  | OpGitCommit => onGitCommit m
  | OpSetInitialErrorCount c => setInitialErrorCount c m
  | OpUpdateErrorCount c => updateErrorCount c m
  | OpCompleteTutorial => completeTutorial m
  | OpUnlockSkill s => fst (unlockSkill s m)
  | OpBuyItem i => fst (buyItem i m)
  | OpEquipItem i => fst (equipItem i m)
  | OpChallengeCompleted s => fst (challengeCompleted s m)
  | OpRename n => fst (renameDeveloper n m)
  end.

(** The states an engine can be in: built by the constructor from whatever
    was saved, then driven through its entry points. *)
Inductive reachable : Manager -> Prop :=
| reach_new (w : World) (saved : option SavedState) :
    reachable (newManager w saved)
| reach_step (w : World) (o : Op) (m : Manager) :
    reachable m -> reachable (step w o m).

Definition is_reset (o : Op) : bool :=
  match o with OpReset _ => true | _ => false end.

Definition is_tick (o : Op) : bool :=
  match o with OpTick => true | _ => false end.

(** ** The editor hooks of [activate] *)

(** Severity of a diagnostic, [vscode.DiagnosticSeverity]. *)
Inductive Severity : Type := SevError | SevWarning | SevInformation | SevHint.

Definition isError (s : Severity) : bool :=
  match s with SevError => true | _ => false end.

(** [getErrorCount]: the [reduce] over the pairs [uri, diags] of
    [vscode.languages.getDiagnostics()]. *)
Definition getErrorCount (diagnostics : list (string * list Severity)) : Z :=
  fold_left
    (fun acc entry =>
       (acc + Z.of_nat (List.length (filter isError (snd entry))))%Z)
    diagnostics 0%Z.

(** The handler of [vscode.languages.onDidChangeDiagnostics]. *)
Definition onDidChangeDiagnostics
    (diagnostics : list (string * list Severity)) (m : Manager) : Manager :=
  updateErrorCount (getErrorCount diagnostics) m.

(** Truthiness of a string that may be [undefined]: the empty string is
    falsy too. *)
Definition truthy_string (s : option string) : bool :=
  match s with
  | Some v => negb (String.eqb v "")
  | None => false
  end.

(** [a !== b] on strings that may be [undefined]. *)
Definition opt_string_neqb (a b : option string) : bool :=
  match a, b with
  | Some x, Some y => negb (String.eqb x y)
  | None, None => false
  | _, _ => true
  end.

(** One [repo.state.onDidChange] event of [hookRepo], on the closure
    variable [lastHead] and the engine; [currentHead] is
    [repo.state.HEAD?.commit]. *)
Definition onRepoChange (currentHead : option string)
    (st : option string * Manager) : option string * Manager :=
  let (lastHead, m) := st in
  if truthy_string currentHead && opt_string_neqb currentHead lastHead
  then (currentHead, onGitCommit m)
  else (lastHead, m).

(** ** The scores of the mini-games (webview script) *)

(** Speed Test: [Math.max(100 - Math.floor(timeTaken / 100), 20)], with
    [timeTaken] in milliseconds. *)
Definition speedTestScore (timeTaken : Z) : Z :=
  Z.max (100 - timeTaken / 100) 20.

(** Boss Battle: [300 + (time * 5)], with [time] the seconds left. *)
Definition bossBattleScore (time : Z) : Z := (300 + time * 5)%Z.

(** ** Sequences of calls *)

(** The engine driven through a list of calls, each in its world. *)
Fixpoint run (calls : list (World * Op)) (m : Manager) : Manager :=
  match calls with
  | [] => m
  | (w, o) :: rest => run rest (step w o m)
  end.

(** The actions that cost coffee. *)
Definition is_spending (o : Op) : bool :=
  match o with
  | OpGiveCoffee | OpUnlockSkill _ | OpBuyItem _ => true
  | _ => false
  end.

(** ** Vocabulary of the statements *)

(** No stat is negative. *)
Definition stats_nonneg (d : Developer) : Prop :=
  0 <= energy d /\ 0 <= focus d /\ 0 <= motivation d.

(** The fields that no quest or bonus bookkeeping writes. *)
Definition same_core (d d' : Developer) : Prop :=
  energy d' = energy d /\ motivation d' = motivation d
  /\ focus d' = focus d /\ health d' = health d
  /\ xp d' = xp d /\ level d' = level d
  /\ skills d' = skills d /\ inventory d' = inventory d
  /\ lastUpdated d' = lastUpdated d
  /\ tutorialCompleted d' = tutorialCompleted d.

(** Skills, inventory, level, streak and quest streak have not gone
    down from [d] to [d']; a quest streak is read as the code reads it,
    [questStreak || 0]. *)
Definition mono (d d' : Developer) : Prop :=
  incl (skills d) (skills d') /\ incl (inventory d) (inventory d')
  /\ (level d <= level d')%Z /\ (streak d <= streak d')%Z
  /\ (or0_opt (questStreak d) <= or0_opt (questStreak d'))%Z.

(** [q] is the quest that [generateDailyQuests] makes of template [t]. *)
Definition fresh_from (t : QuestTemplate) (q : Quest) : Prop :=
  q_type q = t_type t /\ q_description q = t_desc t
  /\ q_target q = t_target t /\ q_reward q = t_reward t
  /\ q_progress q = 0 /\ q_completed q = false.

(** A field of a save read as the claim about loading words it: the value
    that is there, or else the default. *)
Definition present_or {A : Type} (dflt : A) (f : option A) : A :=
  match f with Some v => v | None => dflt end.

(** The currency and the counters that feed it are not negative. *)
Definition wallet_ok (d : Developer) : Prop :=
  (0 <= coffee d)%Z /\ (0 <= streak d)%Z
  /\ (0 <= or0_opt (questStreak d))%Z
  /\ Forall (fun q => (0 <= q_reward q)%Z) (quests d).

(** XP is normalised. *)
Definition xp_ok (d : Developer) : Prop :=
  (1 <= level d)%Z /\ (0 <= xp d < level d * 100)%Z.

(** The three stats are percentages. *)
Definition stats_in_range (d : Developer) : Prop :=
  (0 <= energy d /\ energy d <= 100)
  /\ (0 <= motivation d /\ motivation d <= 100)
  /\ (0 <= focus d /\ focus d <= 100).

(** A mini-game never reports a negative score. *)
Definition nonneg_score (o : Op) : Prop :=
  match o with OpChallengeCompleted score => 0 <= score | _ => True end.

(** Progress is capped by the target, and a completed quest sits on it. *)
Definition quest_ok (q : Quest) : Prop :=
  q_progress q <= q_target q
  /\ (q_completed q = true -> q_progress q == q_target q).

(** The rewards of the completed quests of a list. *)
Definition earned (qs : list Quest) : Z :=
  fold_right
    (fun q acc => ((if q_completed q then q_reward q else 0) + acc)%Z)
    0%Z qs.

(** What [updateQuestProgress ty amount] may do to one quest. *)
Definition quest_advanced (ty : QuestType) (amount : Q) (q q' : Quest)
    : Prop :=
  q_id q' = q_id q /\ q_description q' = q_description q
  /\ q_type q' = q_type q /\ q_target q' = q_target q
  /\ q_reward q' = q_reward q
  /\ (q_completed q = true -> q' = q)
  /\ (q_type q <> ty -> q' = q)
  /\ (q_completed q = false -> q_type q = ty ->
      (q_target q <= q_progress q + amount ->
       q_completed q' = true /\ q_progress q' = q_target q)
      /\ (q_progress q + amount < q_target q ->
          q_completed q' = false /\ q_progress q' = q_progress q + amount)).

(** A run of quest updates with no new day in between. *)
Definition questUpdates (us : list (QuestType * Q)) (d : Developer)
    : Developer :=
  fold_left (fun d u => updateQuestProgress (fst u) (snd u) d) us d.

(** The avatar's purchases: no skill or item twice, and none from outside
    the catalogs. *)
Definition owned_ok (d : Developer) : Prop :=
  NoDup (skills d) /\ NoDup (inventory d)
  /\ incl (skills d) (map sk_id SKILLS)
  /\ incl (inventory d) (map it_id SHOP_ITEMS).

(** The avatar shows the default face or the emoji of a skin it owns. *)
Definition role_ok (d : Developer) : Prop :=
  role d = "👨‍💻"
  \/ exists item : ShopItem,
       In item SHOP_ITEMS /\ it_type item = skin
       /\ it_emoji item = Some (role d)
       /\ In (it_id item) (inventory d).

(** [n] breaks in a row. *)
Definition breaks (n : nat) (m : Manager) : Manager :=
  Nat.iter n (fun m => fst (takeBreak m)) m.

(** ** Sample worlds and states *)

(** Mid-November 2023 at noon, with the catalog left in its order. *)
Definition w_noon : World := mkWorld 1700000000000 12 templates.

(** A half-worn avatar whose derived fields are up to date and whose
    daily bonus was paid at [stamp]. *)
Definition worn (stamp : Z) : Developer :=
  {| energy := 50; motivation := 50; focus := 50; health := 50;
     xp := 0; level := 1; lastUpdated := now w_noon; mood := neutral;
     role := "👨‍💻"; name := "Dev"; coffee := 50;
     skills := []; inventory := []; lastDailyBonus := stamp; streak := 3;
     quests := []; questStreak := Some 2%Z;
     dailyQuestsCompleted := Some true; tutorialCompleted := Some true |}.

(** Paid just now: the next tick at [w_noon] pays nothing. *)
Definition worn_today : Manager := mkManager (worn (now w_noon)) 0.

(** Paid exactly one day before [w_noon], with a streak of 3. *)
Definition worn_yesterday : Manager :=
  mkManager (worn (now w_noon - oneDay)) 0.

(** Paid three days before [w_noon], so that the login streak is broken. *)
Definition worn_long_ago : Manager :=
  mkManager (worn (now w_noon - 3 * oneDay)) 0.


(** A minute and an hour after [w_noon]. *)
Definition w_minute_later : World :=
  mkWorld (now w_noon + 60000) 12 templates.

Definition w_hour_later : World :=
  mkWorld (now w_noon + 3600000) 13 templates.

(** [worn_today] with two quests open, ten minutes into the first. *)
Definition worn_with_quests : Manager :=
  mkManager
    (set_quests
       [ mkQuest (0%Z, 0%nat) "Deep Work: Code for 30 minutes" QTime 30 10
                 20 false;
         mkQuest (0%Z, 1%nat) "Save Master: Save 30 files" QSave 30 0 15
                 false ]
       (set_dailyQuestsCompleted (Some false) (worn (now w_noon))))
    0.

(** [worn 0] sitting on the Ergo Chair. *)
Definition worn_seated : Developer := set_inventory ["furn_chair"] (worn 0).

(** A short session after installing. *)
Definition first_session : list (World * Op) :=
  [ (w_noon, OpCodeSaved); (w_noon, OpChallengeCompleted 100);
    (w_noon, OpGiveCoffee); (w_minute_later, OpTick) ].

(** * Properties *)

(** ** Arithmetic on [Q] with the constants of the code *)

(** Turns divisions by literals into products so that [lra] sees them. *)
Ltac qconst :=
  unfold Qdiv in *;
  repeat match goal with
  | |- context [Qinv ?c] =>
      let v := eval vm_compute in (Qinv c) in
      progress change (Qinv c) with v
  | H : context [Qinv ?c] |- _ =>
      let v := eval vm_compute in (Qinv c) in
      progress change (Qinv c) with v in H
  end.

Lemma Qmax0_nonneg (x : Q) : 0 <= Qmax 0 x.
Proof. apply Q.le_max_l. Qed.

Lemma Qmax0_id (x : Q) : 0 <= x -> Qmax 0 x == x.
Proof. intros H. apply Q.max_r. exact H. Qed.

Lemma Qmin100_nonneg (x : Q) : 0 <= x -> 0 <= Qmin 100 x.
Proof. intros H. apply Q.min_glb; [lra | exact H]. Qed.

Lemma Qmax0_no_decay (h r x : Q) :
  h == 0 -> 0 <= x -> Qmax 0 (x - h * r) == x.
Proof.
  intros Hh Hx.
  assert (E : x - h * r == x) by (rewrite Hh; ring).
  rewrite (Qmax0_id (x - h * r)) by (rewrite E; exact Hx).
  exact E.
Qed.

Lemma momentum_ge (a e f m : Q) :
  0 <= a -> 0 <= e -> 0 <= f -> 0 <= m ->
  a <= a * (1 + e / 100) * (1 + f / 100) * (1 + m / 100).
Proof.
  intros Ha He Hf Hm. qconst.
  assert (H1 : a <= a * (1 + e * (1 # 100))) by nra.
  assert (H2 : a * (1 + e * (1 # 100))
               <= a * (1 + e * (1 # 100)) * (1 + f * (1 # 100))) by nra.
  assert (H3 : 0 <= a * (1 + e * (1 # 100)) * (1 + f * (1 # 100))) by nra.
  nra.
Qed.

Lemma or0_id (n : Z) : or0 n = n.
Proof. unfold or0. destruct (Z.eqb_spec n 0); congruence. Qed.

(** ** The level-up loop *)


(** On exit the test is false, the level has not gone down, and every
    level-up from level [k] has taken exactly [k * 100] XP: the quantity
    [x + 50 * l * (l - 1)] is the XP counted from level 1, and the loop
    keeps it. *)
Lemma levelUp_spec (x l : Z) :
  (l <= snd (levelUp x l)
   /\ fst (levelUp x l) < snd (levelUp x l) * 100
   /\ x + 50 * l * (l - 1)
      = fst (levelUp x l) + 50 * snd (levelUp x l) * (snd (levelUp x l) - 1)
   /\ (1 <= l -> 0 <= x -> 0 <= fst (levelUp x l)))%Z.
Proof.
  funelim (levelUp x l).
  - destruct H as (H1 & H2 & H3 & H4). repeat split; lia.
  - simpl. repeat split; lia.
Qed.

Lemma levelUp_level_mono (x l : Z) : (l <= snd (levelUp x l))%Z.
Proof. apply levelUp_spec. Qed.

(** ** What each part of the engine leaves alone *)

Arguments addXP : simpl never.
Arguments updateQuestProgress : simpl never.

(** [addXP] writes [xp] and [level] only. *)
Lemma addXP_fields (amount : Q) (d : Developer) :
  energy (addXP amount d) = energy d
  /\ motivation (addXP amount d) = motivation d
  /\ focus (addXP amount d) = focus d
  /\ health (addXP amount d) = health d
  /\ coffee (addXP amount d) = coffee d
  /\ skills (addXP amount d) = skills d
  /\ inventory (addXP amount d) = inventory d
  /\ streak (addXP amount d) = streak d
  /\ questStreak (addXP amount d) = questStreak d
  /\ quests (addXP amount d) = quests d
  /\ dailyQuestsCompleted (addXP amount d) = dailyQuestsCompleted d.
Proof. repeat split. Qed.

Lemma addXP_level_mono (amount : Q) (d : Developer) :
  (level d <= level (addXP amount d))%Z.
Proof. unfold addXP. simpl. apply levelUp_level_mono. Qed.

Lemma addXP_amount_compat (a b : Q) (d : Developer) :
  a == b -> addXP a d = addXP b d.
Proof.
  intros H. unfold addXP, xpGain.
  rewrite (Qfloor_comp
             (a * (1 + energy d / 100) * (1 + focus d / 100)
                * (1 + motivation d / 100))
             (b * (1 + energy d / 100) * (1 + focus d / 100)
                * (1 + motivation d / 100)))
    by (rewrite H; reflexivity).
  reflexivity.
Qed.

Lemma same_core_refl (d : Developer) : same_core d d.
Proof. repeat split. Qed.

Lemma same_core_trans (a b c : Developer) :
  same_core a b -> same_core b c -> same_core a c.
Proof.
  unfold same_core. intros H1 H2.
  decompose [and] H1. decompose [and] H2. repeat split; congruence.
Qed.

Lemma updateQuestProgress_core (ty : QuestType) (amount : Q)
    (d : Developer) :
  same_core d (updateQuestProgress ty amount d)
  /\ streak (updateQuestProgress ty amount d) = streak d
  /\ lastDailyBonus (updateQuestProgress ty amount d) = lastDailyBonus d.
Proof.
  unfold updateQuestProgress, same_core.
  match goal with |- context [if ?c then _ else _] => destruct c end;
    simpl; repeat split.
Qed.

Lemma updateQuestProgress_questStreak (ty : QuestType) (amount : Q)
    (d : Developer) :
  (or0_opt (questStreak d)
   <= or0_opt (questStreak (updateQuestProgress ty amount d)))%Z.
Proof.
  unfold updateQuestProgress.
  match goal with |- context [if ?c then _ else _] => destruct c end;
    simpl; rewrite ?or0_id; lia.
Qed.

(** With no quests nothing is paid and nothing completes. *)
Lemma updateQuestProgress_no_quests (ty : QuestType) (amount : Q)
    (d : Developer) :
  quests d = [] ->
  coffee (updateQuestProgress ty amount d) = coffee d
  /\ quests (updateQuestProgress ty amount d) = []
  /\ questStreak (updateQuestProgress ty amount d) = questStreak d
  /\ dailyQuestsCompleted (updateQuestProgress ty amount d)
     = dailyQuestsCompleted d.
Proof.
  intros E. unfold updateQuestProgress. rewrite E. simpl.
  rewrite Bool.andb_false_r. simpl. repeat split.
Qed.

Lemma generateDailyQuests_core (w : World) (d : Developer) :
  same_core d (generateDailyQuests w d)
  /\ streak (generateDailyQuests w d) = streak d
  /\ coffee (generateDailyQuests w d) = coffee d
  /\ lastDailyBonus (generateDailyQuests w d) = lastDailyBonus d.
Proof.
  unfold generateDailyQuests, same_core.
  match goal with |- context [if ?c then _ else _] => destruct c end;
    simpl; repeat split.
Qed.

Lemma checkDailyBonus_core (w : World) (d : Developer) :
  same_core d (checkDailyBonus w d).
Proof.
  unfold checkDailyBonus.
  destruct (oneDay <=? now w - or0 (lastDailyBonus d))%Z;
    [|apply same_core_refl].
  eapply same_core_trans; [|apply generateDailyQuests_core].
  destruct (_ && _); repeat split.
Qed.

Lemma trackCodingTime_core (h : Q) (d : Developer) :
  same_core d (trackCodingTime h d)
  /\ streak (trackCodingTime h d) = streak d
  /\ lastDailyBonus (trackCodingTime h d) = lastDailyBonus d.
Proof.
  unfold trackCodingTime. destruct (Qlt_bool h 0.083).
  - apply updateQuestProgress_core.
  - split; [apply same_core_refl | split; reflexivity].
Qed.

(** [decayStats] writes the three stats only. *)
Lemma decayStats_frame (h : Q) (errors : Z) (d : Developer) :
  health (decayStats h errors d) = health d
  /\ xp (decayStats h errors d) = xp d
  /\ level (decayStats h errors d) = level d
  /\ coffee (decayStats h errors d) = coffee d
  /\ skills (decayStats h errors d) = skills d
  /\ inventory (decayStats h errors d) = inventory d
  /\ streak (decayStats h errors d) = streak d
  /\ lastDailyBonus (decayStats h errors d) = lastDailyBonus d
  /\ quests (decayStats h errors d) = quests d
  /\ questStreak (decayStats h errors d) = questStreak d
  /\ dailyQuestsCompleted (decayStats h errors d) = dailyQuestsCompleted d
  /\ tutorialCompleted (decayStats h errors d) = tutorialCompleted d.
Proof.
  unfold decayStats. destruct (0 <? errors)%Z; simpl; repeat split.
Qed.

Lemma decayStats_nonneg (h : Q) (errors : Z) (d : Developer) :
  0 <= energy (decayStats h errors d)
  /\ 0 <= motivation (decayStats h errors d)
  /\ 0 <= focus (decayStats h errors d).
Proof.
  unfold decayStats. destruct (0 <? errors)%Z; simpl;
    repeat split; apply Qmax0_nonneg.
Qed.

(** The three stats after a tick are those that [decayStats] computed. *)
Lemma updateStats_stats (w : World) (m : Manager) :
  let d0 := decayStats (hoursPassed w (developer m)) (lastErrorCount m)
                       (developer m) in
  let d' := developer (updateStats w m) in
  energy d' = energy d0 /\ motivation d' = motivation d0
  /\ focus d' = focus d0.
Proof.
  intros d0 d'. subst d'. unfold updateStats, beforeDailyBonus. simpl.
  fold d0.
  destruct (checkDailyBonus_core w
              (trackCodingTime (hoursPassed w (developer m)) d0))
    as (E1 & E2 & E3 & _).
  destruct (trackCodingTime_core (hoursPassed w (developer m)) d0)
    as ((F1 & F2 & F3 & _) & _).
  repeat split; congruence.
Qed.

Lemma updateStats_nonneg (w : World) (m : Manager) :
  0 <= energy (developer (updateStats w m))
  /\ 0 <= motivation (developer (updateStats w m))
  /\ 0 <= focus (developer (updateStats w m)).
Proof.
  destruct (updateStats_stats w m) as (E1 & E2 & E3).
  rewrite E1, E2, E3. apply decayStats_nonneg.
Qed.

(** A tick keeps skills, inventory and level, and hands [checkDailyBonus]
    the streak and bonus stamp it found. *)
Lemma updateStats_core (w : World) (m : Manager) :
  let d := developer m in
  let d1 := beforeDailyBonus w m in
  let d' := developer (updateStats w m) in
  skills d' = skills d /\ inventory d' = inventory d /\ level d' = level d
  /\ streak d1 = streak d /\ lastDailyBonus d1 = lastDailyBonus d
  /\ (or0_opt (questStreak d) <= or0_opt (questStreak d1))%Z.
Proof.
  intros d d1 d'. subst d d1 d'.
  unfold updateStats, beforeDailyBonus, deriveStats.
  cbn [developer set_developer skills inventory level set_lastUpdated
       set_mood set_health].
  set (h := hoursPassed w (developer m)).
  set (d0 := decayStats h (lastErrorCount m) (developer m)).
  destruct (checkDailyBonus_core w (trackCodingTime h d0))
    as (_ & _ & _ & _ & _ & C1 & C2 & C3 & _).
  destruct (trackCodingTime_core h d0)
    as ((_ & _ & _ & _ & _ & T1 & T2 & T3 & _) & T4 & T5).
  destruct (decayStats_frame h (lastErrorCount m) (developer m))
    as (_ & _ & D1 & _ & D2 & D3 & D4 & D5 & _ & D6 & _).
  fold d0 in D1, D2, D3, D4, D5, D6.
  assert (Q1 : (or0_opt (questStreak d0)
                <= or0_opt (questStreak (trackCodingTime h d0)))%Z).
  { unfold trackCodingTime. destruct (Qlt_bool h 0.083);
      [apply updateQuestProgress_questStreak | lia]. }
  repeat split; congruence.
Qed.

Lemma beforeDailyBonus_no_quests (w : World) (m : Manager) :
  quests (developer m) = [] ->
  coffee (beforeDailyBonus w m) = coffee (developer m).
Proof.
  intros E. unfold beforeDailyBonus.
  set (h := hoursPassed w (developer m)).
  destruct (decayStats_frame h (lastErrorCount m) (developer m))
    as (_ & _ & _ & D1 & _ & _ & _ & _ & D2 & _).
  unfold trackCodingTime. destruct (Qlt_bool h 0.083); [|exact D1].
  destruct (updateQuestProgress_no_quests QTime (h * 60)
              (decayStats h (lastErrorCount m) (developer m)))
    as (U & _); [rewrite D2; exact E|].
  rewrite U. exact D1.
Qed.

(** ** The stats are never negative *)

Lemma stats_nonneg_core (d d' : Developer) :
  same_core d d' -> stats_nonneg d -> stats_nonneg d'.
Proof.
  unfold same_core, stats_nonneg.
  intros (E1 & E2 & E3 & _) (H1 & H2 & H3). rewrite E1, E2, E3.
  repeat split; assumption.
Qed.

Lemma stats_nonneg_addXP (amount : Q) (d : Developer) :
  stats_nonneg d -> stats_nonneg (addXP amount d).
Proof. intros H. exact H. Qed.

Lemma stats_nonneg_updateQuestProgress (ty : QuestType) (amount : Q)
    (d : Developer) :
  stats_nonneg d -> stats_nonneg (updateQuestProgress ty amount d).
Proof.
  apply stats_nonneg_core. apply updateQuestProgress_core.
Qed.

Ltac stat_bound :=
  unfold stats_nonneg in *; simpl;
  repeat match goal with H : _ /\ _ |- _ => destruct H end;
  repeat split;
  first [ assumption
        | apply Qmax0_nonneg
        | apply Qmin100_nonneg; lra ].

Lemma stats_nonneg_updateStats (w : World) (m : Manager) :
  stats_nonneg (developer (updateStats w m)).
Proof.
  destruct (updateStats_nonneg w m) as (H1 & H2 & H3).
  repeat split; assumption.
Qed.

Lemma stats_nonneg_step (w : World) (o : Op) (m : Manager) :
  stats_nonneg (developer m) -> stats_nonneg (developer (step w o m)).
Proof.
  intros H. destruct o; unfold step.
  - apply stats_nonneg_updateStats.
  - unfold resetProgress. destruct confirmed;
      [apply stats_nonneg_updateStats | exact H].
  - unfold giveCoffee. destruct (_ <? _)%Z; [exact H|].
    cbv zeta. cbn [fst developer set_developer].
    apply stats_nonneg_addXP.
    destruct (includes _ _); stat_bound.
  - unfold takeBreak. destruct (_ && _); [exact H|].
    cbv zeta. cbn [fst developer set_developer].
    pose proof (stats_nonneg_addXP (inject_Z (breakXP (developer m))) _ H).
    stat_bound.
  - unfold onCodeSaved. cbv zeta. cbn [developer set_developer].
    apply stats_nonneg_updateQuestProgress, stats_nonneg_addXP. stat_bound.
  - unfold onGitCommit. cbv zeta. cbn [developer set_developer].
    apply stats_nonneg_updateQuestProgress, stats_nonneg_addXP. stat_bound.
  - exact H.
  - unfold updateErrorCount. cbv zeta. cbn [developer].
    destruct (currentErrors - lastErrorCount m <? 0)%Z.
    + apply stats_nonneg_updateQuestProgress.
      pose proof (stats_nonneg_addXP
                    (inject_Z (Z.abs (currentErrors - lastErrorCount m) * 5
                               * (if includes (skills (developer m))
                                       "bug_slayer" then 2 else 1)))
                    _ H) as H'.
      assert (Hfix : 0 <= inject_Z (Z.abs (currentErrors - lastErrorCount m))).
      { change 0 with (inject_Z 0). rewrite <- Zle_Qle. apply Z.abs_nonneg. }
      stat_bound.
    + destruct (0 <? currentErrors - lastErrorCount m)%Z;
        [stat_bound | exact H].
  - exact H.
  - unfold unlockSkill. destruct (find _ SKILLS); [|exact H].
    destruct (includes _ _); [exact H|].
    destruct (_ <? _)%Z; [exact H|]. exact H.
  - unfold buyItem. destruct (find _ SHOP_ITEMS) as [item|]; [|exact H].
    destruct (includes _ _); [exact H|].
    destruct (_ <? _)%Z; [exact H|].
    destruct (it_type item), (it_emoji item); exact H.
  - unfold equipItem. destruct (find _ SHOP_ITEMS) as [item|]; [|exact H].
    destruct (negb _); [exact H|].
    destruct (it_type item), (it_emoji item); exact H.
  - unfold challengeCompleted. cbv zeta. cbn [fst developer set_developer].
    apply stats_nonneg_addXP. stat_bound.
  - exact H.
Qed.

(** The constructor ticks before anything else, so whatever the save
    held, no state of a running engine has a negative stat. *)
Lemma reachable_stats_nonneg (m : Manager) :
  reachable m -> stats_nonneg (developer m).
Proof.
  induction 1 as [w saved | w o m _ IH].
  - apply stats_nonneg_updateStats.
  - apply stats_nonneg_step, IH.
Qed.

(** ** XP and levelling *)

Lemma xpGain_nonneg (amount : Q) (d : Developer) :
  0 <= amount -> 0 <= energy d -> 0 <= focus d -> 0 <= motivation d ->
  (0 <= xpGain amount d)%Z.
Proof.
  intros Ha He Hf Hm. unfold xpGain.
  change 0%Z with (Qfloor 0). apply Qfloor_resp_le.
  pose proof (momentum_ge _ _ _ _ Ha He Hf Hm). lra.
Qed.




(** ** Coffee *)

(** On the half-worn avatar the boosted stats give 25 XP where the
    stats before the coffee would have given 16. *)
Lemma giveCoffee_gain_is_not_precoffee :
  xpGain 5 (worn 0) = 16%Z
  /\ xp (developer (fst (giveCoffee worn_today))) = 25%Z.
Proof. split; vm_compute; reflexivity. Qed.



(** ** Challenges *)

(** The claim C6 fails on the XP amount: the square of 300 is 90000, not
    900, so the amount handed to [addXP] is 1470, not 579; on the
    half-worn avatar that is 4961 XP before levelling instead of 1954. *)
Lemma challenge_300_raw_is_not_579 :
  ~ challengeRawXP 300 == 579
  /\ xpGain (challengeRawXP 300) (worn 0) = 4961%Z
  /\ xpGain 579 (worn 0) = 1954%Z.
Proof.
  split; [vm_compute; intro H; discriminate H|].
  split; vm_compute; reflexivity.
Qed.

(** C6, amended: [challengeCompleted 300] returns 30 and adds exactly 30
    coffee ([floor (300 / 10)]), and hands [addXP] the raw amount
    [300 + 90000 / 100 + 27000000 / 100000 = 300 + 900 + 270 = 1470],
    after motivation has been raised by 20. *)
Theorem challenge_300 (m : Manager) :
  let d := developer m in
  let r := challengeCompleted 300 m in
  snd r = 30%Z
  /\ coffee (developer (fst r)) = (coffee d + 30)%Z
  /\ challengeRawXP 300 == 300 + 90000 / 100 + 27000000 / 100000
  /\ challengeRawXP 300 == 300 + 900 + 270
  /\ challengeRawXP 300 == 1470
  /\ developer (fst r)
     = addXP 1470 (set_motivation (Qmin 100 (motivation d + 20))
                     (set_coffee (coffee d + 30)%Z d)).
Proof.
  intros d r. subst d r.
  split; [reflexivity|]. split; [reflexivity|].
  split; [reflexivity|]. split; [reflexivity|]. split; [reflexivity|].
  unfold challengeCompleted. cbv zeta. cbn [fst developer set_developer].
  change (Qfloor (300 / 10)) with 30%Z.
  apply addXP_amount_compat. reflexivity.
Qed.

(** ** Health after the handlers *)

Lemma updateErrorCount_health (c : Z) (m : Manager) :
  health (developer (updateErrorCount c m)) = health (developer m).
Proof.
  unfold updateErrorCount. cbv zeta. cbn [developer].
  destruct (c - lastErrorCount m <? 0)%Z.
  - match goal with |- health (updateQuestProgress ?t ?a ?d) = _ =>
      destruct (updateQuestProgress_core t a d) as ((_ & _ & _ & H & _) & _);
      rewrite H end.
    reflexivity.
  - destruct (0 <? c - lastErrorCount m)%Z; reflexivity.
Qed.

(** The claim C1 fails: after [giveCoffee] on the half-worn avatar the
    stats are 85, 60 and 70 and [health] is still 50; after [onCodeSaved]
    motivation is 53 and [health] is still 50. *)
Lemma handlers_leave_health_stale :
  (let d' := developer (fst (giveCoffee worn_today)) in
   ~ health d' == (energy d' + motivation d' + focus d') / 3)
  /\ (let d' := developer (onCodeSaved worn_today) in
      ~ health d' == (energy d' + motivation d' + focus d') / 3).
Proof. split; vm_compute; intro H; discriminate H. Qed.

(** C1, amended: none of the handlers [giveCoffee], [takeBreak],
    [onCodeSaved], [onGitCommit], [updateErrorCount], [challengeCompleted]
    writes [health]: on return it is what it was before the call.  It is
    the tick, [updateStats], that sets [health] to the mean of energy,
    motivation and focus. *)
Theorem health_only_set_by_tick (w : World) (m : Manager) (c : Z)
    (score : Q) :
  health (developer (fst (giveCoffee m))) = health (developer m)
  /\ health (developer (fst (takeBreak m))) = health (developer m)
  /\ health (developer (onCodeSaved m)) = health (developer m)
  /\ health (developer (onGitCommit m)) = health (developer m)
  /\ health (developer (updateErrorCount c m)) = health (developer m)
  /\ health (developer (fst (challengeCompleted score m)))
     = health (developer m)
  /\ (let d' := developer (updateStats w m) in
      health d' == (energy d' + motivation d' + focus d') / 3).
Proof.
  split; [unfold giveCoffee; destruct (_ <? _)%Z; reflexivity|].
  split; [unfold takeBreak; destruct (_ && _); reflexivity|].
  split.
  { unfold onCodeSaved. simpl.
    match goal with |- health (updateQuestProgress ?t ?a ?d) = _ =>
      destruct (updateQuestProgress_core t a d) as ((_ & _ & _ & H & _) & _);
      rewrite H end.
    reflexivity. }
  split.
  { unfold onGitCommit. simpl.
    match goal with |- health (updateQuestProgress ?t ?a ?d) = _ =>
      destruct (updateQuestProgress_core t a d) as ((_ & _ & _ & H & _) & _);
      rewrite H end.
    reflexivity. }
  split; [apply updateErrorCount_health|].
  split; [reflexivity|].
  simpl. reflexivity.
Qed.

(** ** Ticking twice at the same instant *)

(** With no time elapsed the decay is nil and only the linter stress
    remains. *)
Lemma decayStats_no_time (h : Q) (errors : Z) (d : Developer) :
  h == 0 -> 0 <= energy d -> 0 <= motivation d -> 0 <= focus d ->
  let d' := decayStats h errors d in
  focus d' == focus d
  /\ ((errors <= 0)%Z ->
      energy d' == energy d /\ motivation d' == motivation d)
  /\ ((0 < errors)%Z ->
      energy d' == Qmax 0 (energy d - inject_Z errors * 0.05)
      /\ motivation d' == Qmax 0 (motivation d - inject_Z errors * 0.05)).
Proof.
  intros Hh He Hm Hf d'. subst d'. unfold decayStats.
  destruct (Z.ltb_spec 0 errors) as [Hpos|Hnon]; simpl.
  - split; [apply Qmax0_no_decay; assumption|].
    split; [intros; lia|]. intros _.
    split.
    + rewrite (Qmax0_no_decay h _ (energy d)) by assumption. reflexivity.
    + rewrite (Qmax0_no_decay h _ (motivation d)) by assumption.
      reflexivity.
  - split; [apply Qmax0_no_decay; assumption|].
    split; [|intros; lia]. intros _.
    split; apply Qmax0_no_decay; assumption.
Qed.

(** The claim C2 fails: with one active error, the second of two ticks at
    the same instant takes another 0.05 off energy and motivation (49.95
    becomes 49.90), and health follows. *)
Lemma second_tick_drains_under_errors :
  let m1 := updateStats w_noon (mkManager (worn (now w_noon)) 1) in
  let m2 := updateStats w_noon m1 in
  ~ energy (developer m2) == energy (developer m1)
  /\ ~ motivation (developer m2) == motivation (developer m1)
  /\ ~ health (developer m2) == health (developer m1).
Proof. repeat split; vm_compute; intro H; discriminate H. Qed.

(** C2, amended: for every state and every instant, a second tick at the
    same instant leaves focus unchanged; it leaves energy, motivation and
    health unchanged when the reported error count is not positive; with
    a positive error count it takes [errorCount * 0.05] off energy and off
    motivation once more (not below 0), and health is the mean of the
    three new values. *)
Theorem tick_twice_same_now (w1 w2 : World) (m : Manager) :
  now w2 = now w1 ->
  let m1 := updateStats w1 m in
  let m2 := updateStats w2 m1 in
  let stress := inject_Z (lastErrorCount m) * 0.05 in
  focus (developer m2) == focus (developer m1)
  /\ ((lastErrorCount m <= 0)%Z ->
      energy (developer m2) == energy (developer m1)
      /\ motivation (developer m2) == motivation (developer m1)
      /\ health (developer m2) == health (developer m1))
  /\ ((0 < lastErrorCount m)%Z ->
      energy (developer m2) == Qmax 0 (energy (developer m1) - stress)
      /\ motivation (developer m2)
         == Qmax 0 (motivation (developer m1) - stress)
      /\ health (developer m2)
         == (energy (developer m2) + motivation (developer m2)
             + focus (developer m2)) / 3).
Proof.
  intros Hnow m1 m2 stress.
  destruct (updateStats_nonneg w1 m) as (He & Hm & Hf). fold m1 in He, Hm, Hf.
  destruct (updateStats_stats w2 m1) as (E1 & E2 & E3). fold m2 in E1, E2, E3.
  assert (Hh : hoursPassed w2 (developer m1) == 0).
  { unfold hoursPassed.
    replace (lastUpdated (developer m1)) with (now w1) by reflexivity.
    rewrite Hnow, Z.sub_diag. reflexivity. }
  change (lastErrorCount m1) with (lastErrorCount m) in E1, E2, E3.
  destruct (decayStats_no_time _ (lastErrorCount m) _ Hh He Hm Hf)
    as (D1 & D2 & D3).
  rewrite <- E1, <- E2 in D2, D3. rewrite <- E3 in D1.
  split; [exact D1|]. split.
  - intros Hc. destruct (D2 Hc) as (A & B). split; [exact A|].
    split; [exact B|].
    change (health (developer m2))
      with ((energy (developer m2) + motivation (developer m2)
             + focus (developer m2)) / 3).
    change (health (developer m1))
      with ((energy (developer m1) + motivation (developer m1)
             + focus (developer m1)) / 3).
    rewrite A, B, D1. reflexivity.
  - intros Hc. destruct (D3 Hc) as (A & B). split; [exact A|].
    split; [exact B|]. reflexivity.
Qed.

Lemma tick_twice_same_now_witness :
  now w_noon = now w_noon
  /\ focus (developer (updateStats w_noon (updateStats w_noon worn_today)))
     == focus (developer (updateStats w_noon worn_today)).
Proof.
  split; [reflexivity|].
  exact (proj1 (tick_twice_same_now w_noon w_noon worn_today eq_refl)).
Defined.

(** ** The daily bonus and the quests of the day *)

Lemma questsOf_fresh (stamp : Z) (ts : list QuestTemplate) (i : nat) :
  Forall2 fresh_from ts (questsOf stamp i ts).
Proof.
  revert i. induction ts as [|t ts IH]; intros i; simpl.
  - constructor.
  - constructor; [repeat split | apply IH].
Qed.

Lemma templates_NoDup : NoDup templates.
Proof.
  unfold templates.
  repeat (constructor; [simpl; intuition discriminate|]).
  constructor.
Qed.

Lemma checkDailyBonus_idle (w : World) (d : Developer) :
  (now w - lastDailyBonus d < oneDay)%Z -> checkDailyBonus w d = d.
Proof.
  intros H. unfold checkDailyBonus. rewrite or0_id.
  destruct (Z.leb_spec oneDay (now w - lastDailyBonus d)); [lia|reflexivity].
Qed.

(** What [checkDailyBonus] writes when the bonus is due. *)
Lemma checkDailyBonus_fires (w : World) (d : Developer) :
  (oneDay <= now w - lastDailyBonus d)%Z ->
  let s' := if (0 <? lastDailyBonus d)%Z
               && (now w - lastDailyBonus d <? twoDays)%Z
            then (streak d + 1)%Z else 1%Z in
  let d' := checkDailyBonus w d in
  streak d' = s'
  /\ coffee d' = (coffee d + (20 + s' * 5))%Z
  /\ lastDailyBonus d' = now w
  /\ quests d' = questsOf (now w) 0 (firstn 3 (shuffled w))
  /\ questStreak d'
     = (if (s' =? 1)%Z || negb (truthy (dailyQuestsCompleted d))
        then Some 0%Z else questStreak d)
  /\ dailyQuestsCompleted d' = Some false.
Proof.
  intros H s' d'. subst s' d'. unfold checkDailyBonus.
  rewrite !or0_id.
  destruct (Z.leb_spec oneDay (now w - lastDailyBonus d)) as [_|]; [|lia].
  unfold generateDailyQuests.
  destruct ((0 <? lastDailyBonus d)%Z
            && (now w - lastDailyBonus d <? twoDays)%Z); simpl;
    try match goal with |- context [if ?c then _ else _] => destruct c end;
    simpl; repeat split.
Qed.

(** What a tick that pays the bonus leaves in the avatar. *)
Lemma updateStats_bonus (w : World) (m : Manager) :
  (oneDay <= now w - lastDailyBonus (developer m))%Z ->
  let d := developer m in
  let d1 := beforeDailyBonus w m in
  let d' := developer (updateStats w m) in
  let s' := if (0 <? lastDailyBonus d)%Z
               && (now w - lastDailyBonus d <? twoDays)%Z
            then (streak d + 1)%Z else 1%Z in
  streak d' = s'
  /\ coffee d' = (coffee d1 + (20 + s' * 5))%Z
  /\ lastDailyBonus d' = now w
  /\ quests d' = questsOf (now w) 0 (firstn 3 (shuffled w))
  /\ questStreak d'
     = (if (s' =? 1)%Z || negb (truthy (dailyQuestsCompleted d1))
        then Some 0%Z else questStreak d1)
  /\ dailyQuestsCompleted d' = Some false.
Proof.
  intros Hdue d d1 d' s'.
  destruct (updateStats_core w m) as (_ & _ & _ & K4 & K5 & _).
  fold d d1 in K4, K5.
  destruct (checkDailyBonus_fires w d1) as (F1 & F2 & F3 & F4 & F5 & F6);
    [rewrite K5; exact Hdue|].
  rewrite K4, K5 in F1, F2, F5. fold s' in F1, F2, F5.
  repeat split; assumption.
Qed.

(** From here on the world is one whose shuffle is a reordering of the
    catalog. *)
Section FairWorld.

Variable w : World.
Hypothesis fair_w : fair w.

(** A sort leaves the eight templates in some order, so its first three
    entries are three different templates of the catalog. *)
Lemma fair_pick :
  List.length (firstn 3 (shuffled w)) = 3%nat
  /\ NoDup (firstn 3 (shuffled w))
  /\ incl (firstn 3 (shuffled w)) templates.
Proof.
  pose proof fair_w as Hf. unfold fair in Hf.
  assert (Hlen : List.length (shuffled w) = 8%nat)
    by (rewrite <- (Permutation_length Hf); reflexivity).
  assert (Hnd : NoDup (shuffled w))
    by (apply (Permutation_NoDup Hf), templates_NoDup).
  rewrite <- (firstn_skipn 3 (shuffled w)) in Hnd.
  split; [rewrite length_firstn, Hlen; reflexivity|].
  split; [apply (NoDup_app_remove_r _ _ Hnd)|].
  intros t Ht. apply (Permutation_in t (Permutation_sym Hf)).
  rewrite <- (firstn_skipn 3 (shuffled w)). apply in_or_app. left. exact Ht.
Qed.

(** The claim C4 fails where it takes the streak before the update: one
    day after the last bonus, with a streak of 3 and no quests, the tick
    pays 40 = 20 + 4 * 5 coffee, not 35 = 20 + 3 * 5. *)
Lemma bonus_counts_new_streak :
  let d := developer worn_yesterday in
  let d' := developer (updateStats w_noon worn_yesterday) in
  (oneDay <= now w_noon - lastDailyBonus d)%Z
  /\ streak d = 3%Z
  /\ coffee d' = (coffee d + 40)%Z
  /\ coffee d' <> (coffee d + (20 + streak d * 5))%Z.
Proof. vm_compute. repeat split; intro H; discriminate H. Qed.

(** C4, amended: whenever a tick runs with [now - lastDailyBonus >= 24h],
    [checkDailyBonus] first updates the streak (to [streak + 1] if there
    was an earlier bonus and the gap is under 48h, otherwise to 1), then
    awards [20 + streak * 5] coffee with the updated streak, on top of the
    balance the tick had reached before the bonus (the old balance when
    there are no quests), sets [lastDailyBonus = now], and replaces the
    quest list by 3 quests made of 3 different templates of the catalog of
    8, each with [progress = 0] and [completed = false]. *)
Theorem daily_bonus_in_tick (m : Manager) :
  (oneDay <= now w - lastDailyBonus (developer m))%Z ->
  let d := developer m in
  let d' := developer (updateStats w m) in
  streak d'
  = (if (0 <? lastDailyBonus d)%Z && (now w - lastDailyBonus d <? twoDays)%Z
     then (streak d + 1)%Z else 1%Z)
  /\ coffee d' = (coffee (beforeDailyBonus w m) + (20 + streak d' * 5))%Z
  /\ (quests d = [] -> coffee d' = (coffee d + (20 + streak d' * 5))%Z)
  /\ lastDailyBonus d' = now w
  /\ List.length templates = 8%nat
  /\ exists ts : list QuestTemplate,
       List.length ts = 3%nat /\ NoDup ts /\ incl ts templates
       /\ Forall2 fresh_from ts (quests d').
Proof.
  intros Hdue d d'.
  destruct (updateStats_bonus w m Hdue) as (B1 & B2 & B3 & B4 & _).
  fold d d' in B1, B2, B3, B4.
  split; [exact B1|].
  split; [rewrite B2, B1; reflexivity|].
  split.
  { intros Hq. rewrite B2, B1.
    rewrite (beforeDailyBonus_no_quests w m Hq). reflexivity. }
  split; [exact B3|].
  split; [reflexivity|].
  exists (firstn 3 (shuffled w)).
  destruct fair_pick as (P1 & P2 & P3).
  repeat split; try assumption.
  rewrite B4. apply questsOf_fresh.
Qed.



End FairWorld.

Lemma daily_bonus_in_tick_witness :
  fair w_noon
  /\ (oneDay <= now w_noon - lastDailyBonus (developer worn_yesterday))%Z
  /\ lastDailyBonus (developer (updateStats w_noon worn_yesterday))
     = now w_noon.
Proof.
  assert (H1 : fair w_noon) by apply Permutation_refl.
  assert (H2 : (oneDay
                <= now w_noon - lastDailyBonus (developer worn_yesterday))%Z)
    by (vm_compute; intro H; discriminate H).
  split; [exact H1|]. split; [exact H2|].
  exact (proj1 (proj2 (proj2 (proj2
    (daily_bonus_in_tick w_noon H1 worn_yesterday H2))))).
Defined.


(** ** Monotone fields *)

Lemma mono_refl (d : Developer) : mono d d.
Proof. unfold mono. repeat split; try apply incl_refl; lia. Qed.

Lemma mono_trans (a b c : Developer) : mono a b -> mono b c -> mono a c.
Proof.
  unfold mono. intros (A1 & A2 & A3 & A4 & A5) (B1 & B2 & B3 & B4 & B5).
  repeat split; try (eapply incl_tran; eassumption); lia.
Qed.

Lemma mono_addXP (amount : Q) (d : Developer) : mono d (addXP amount d).
Proof.
  unfold mono. pose proof (addXP_level_mono amount d).
  repeat split; try apply incl_refl; try lia; apply Z.le_refl.
Qed.

Lemma mono_updateQuestProgress (ty : QuestType) (amount : Q)
    (d : Developer) :
  mono d (updateQuestProgress ty amount d).
Proof.
  destruct (updateQuestProgress_core ty amount d)
    as ((_ & _ & _ & _ & _ & El & Es & Ei & _) & Est & _).
  pose proof (updateQuestProgress_questStreak ty amount d).
  unfold mono. rewrite El, Es, Ei, Est.
  repeat split; try apply incl_refl; lia.
Qed.

Ltac mono_set :=
  unfold mono; simpl; repeat split;
  try apply incl_refl; try (apply incl_appl; apply incl_refl);
  try apply Z.le_refl.

Lemma mono_giveCoffee (m : Manager) :
  mono (developer m) (developer (fst (giveCoffee m))).
Proof.
  unfold giveCoffee. destruct (_ <? _)%Z; [apply mono_refl|].
  cbv zeta. cbn [fst developer set_developer].
  eapply mono_trans; [|apply mono_addXP]. mono_set.
Qed.

Lemma mono_takeBreak (m : Manager) :
  mono (developer m) (developer (fst (takeBreak m))).
Proof.
  unfold takeBreak. destruct (_ && _); [apply mono_refl|].
  cbv zeta. cbn [fst developer set_developer].
  eapply mono_trans; [apply (mono_addXP (inject_Z (breakXP (developer m))))|].
  mono_set.
Qed.

Lemma mono_onCodeSaved (m : Manager) :
  mono (developer m) (developer (onCodeSaved m)).
Proof.
  unfold onCodeSaved. cbv zeta. cbn [developer set_developer].
  eapply mono_trans; [|apply mono_updateQuestProgress].
  eapply mono_trans; [|apply mono_addXP]. mono_set.
Qed.

Lemma mono_onGitCommit (m : Manager) :
  mono (developer m) (developer (onGitCommit m)).
Proof.
  unfold onGitCommit. cbv zeta. cbn [developer set_developer].
  eapply mono_trans; [|apply mono_updateQuestProgress].
  eapply mono_trans; [|apply mono_addXP]. mono_set.
Qed.

Lemma mono_updateErrorCount (c : Z) (m : Manager) :
  mono (developer m) (developer (updateErrorCount c m)).
Proof.
  unfold updateErrorCount. cbv zeta. cbn [developer].
  destruct (c - lastErrorCount m <? 0)%Z.
  - eapply mono_trans; [|apply mono_updateQuestProgress].
    eapply mono_trans; [apply mono_addXP|]. mono_set.
  - destruct (0 <? c - lastErrorCount m)%Z; [mono_set|apply mono_refl].
Qed.

Lemma mono_unlockSkill (i : string) (m : Manager) :
  mono (developer m) (developer (fst (unlockSkill i m))).
Proof.
  unfold unlockSkill. destruct (find _ SKILLS); [|apply mono_refl].
  destruct (includes _ _); [apply mono_refl|].
  destruct (_ <? _)%Z; [apply mono_refl|]. mono_set.
Qed.

Lemma mono_buyItem (i : string) (m : Manager) :
  mono (developer m) (developer (fst (buyItem i m))).
Proof.
  unfold buyItem. destruct (find _ SHOP_ITEMS) as [item|]; [|apply mono_refl].
  destruct (includes _ _); [apply mono_refl|].
  destruct (_ <? _)%Z; [apply mono_refl|].
  destruct (it_type item), (it_emoji item); mono_set.
Qed.

Lemma mono_equipItem (i : string) (m : Manager) :
  mono (developer m) (developer (fst (equipItem i m))).
Proof.
  unfold equipItem. destruct (find _ SHOP_ITEMS) as [item|]; [|apply mono_refl].
  destruct (negb _); [apply mono_refl|].
  destruct (it_type item), (it_emoji item); mono_set.
Qed.

Lemma mono_challengeCompleted (score : Q) (m : Manager) :
  mono (developer m) (developer (fst (challengeCompleted score m))).
Proof.
  unfold challengeCompleted. cbv zeta. cbn [fst developer set_developer].
  eapply mono_trans; [|apply mono_addXP]. mono_set.
Qed.

Lemma mono_setInitialErrorCount (c : Z) (m : Manager) :
  mono (developer m) (developer (setInitialErrorCount c m)).
Proof. apply mono_refl. Qed.

Lemma mono_completeTutorial (m : Manager) :
  mono (developer m) (developer (completeTutorial m)).
Proof. mono_set. Qed.

Lemma mono_renameDeveloper (n : string) (m : Manager) :
  mono (developer m) (developer (fst (renameDeveloper n m))).
Proof. mono_set. Qed.

Create HintDb mono.

#[local] Hint Resolve mono_giveCoffee mono_takeBreak mono_onCodeSaved
  mono_onGitCommit mono_setInitialErrorCount mono_updateErrorCount
  mono_completeTutorial mono_unlockSkill mono_buyItem mono_equipItem
  mono_challengeCompleted mono_renameDeveloper : mono.

(** The claim C3 fails: a tick three days after the last bonus takes the
    login streak from 3 back to 1 and the quest streak from 2 back to 0. *)
Lemma broken_streak_goes_down :
  let d := developer worn_long_ago in
  let d' := developer (step w_noon OpTick worn_long_ago) in
  is_reset OpTick = false
  /\ (streak d' < streak d)%Z
  /\ (or0_opt (questStreak d') < or0_opt (questStreak d))%Z.
Proof. vm_compute. repeat split. Qed.

(** C3, amended: under every operation except [resetProgress], skills and
    inventory lose no element and the level does not decrease.  The login
    streak and the quest streak do not decrease under any of these
    operations either, except in a tick that pays the daily bonus: that
    tick sets the streak to [streak + 1] when there was an earlier bonus
    less than 48h ago and to 1 otherwise, and sets the quest streak to 0
    when the streak has become 1 or the day's quests were not all done. *)
Theorem monotone_outside_reset_and_bonus (w : World) (o : Op)
    (m : Manager) :
  is_reset o = false ->
  let d := developer m in
  let d' := developer (step w o m) in
  incl (skills d) (skills d')
  /\ incl (inventory d) (inventory d')
  /\ (level d <= level d')%Z
  /\ (is_tick o = false \/ (now w - lastDailyBonus d < oneDay)%Z ->
      (streak d <= streak d')%Z
      /\ (or0_opt (questStreak d) <= or0_opt (questStreak d'))%Z)
  /\ (is_tick o = true -> (oneDay <= now w - lastDailyBonus d)%Z ->
      streak d'
      = (if (0 <? lastDailyBonus d)%Z
            && (now w - lastDailyBonus d <? twoDays)%Z
         then (streak d + 1)%Z else 1%Z)
      /\ questStreak d'
         = (if (streak d' =? 1)%Z
               || negb (truthy (dailyQuestsCompleted (beforeDailyBonus w m)))
            then Some 0%Z else questStreak (beforeDailyBonus w m))).
Proof.
  intros Hr d d'.
  assert (Hmono : is_tick o = false -> mono d d').
  { intros Ht. subst d d'.
    destruct o; try discriminate; unfold step; auto with mono. }
  destruct (is_tick o) eqn:Ht.
  - destruct o; try discriminate. clear Hmono Hr.
    destruct (updateStats_core w m) as (K1 & K2 & K3 & K4 & K5 & K6).
    fold d in K1, K2, K3, K4, K5, K6.
    change (developer (updateStats w m)) with d' in K1, K2, K3.
    assert (Es : streak d' = streak (checkDailyBonus w (beforeDailyBonus w m)))
      by reflexivity.
    assert (Eq : questStreak d'
                 = questStreak (checkDailyBonus w (beforeDailyBonus w m)))
      by reflexivity.
    rewrite K1, K2, K3.
    split; [apply incl_refl|]. split; [apply incl_refl|].
    split; [apply Z.le_refl|]. split.
    + intros [Hf|Hidle]; [discriminate|].
      rewrite Es, Eq, checkDailyBonus_idle by (rewrite K5; exact Hidle).
      rewrite K4. split; [apply Z.le_refl | exact K6].
    + intros _ Hdue.
      destruct (checkDailyBonus_fires w (beforeDailyBonus w m))
        as (F1 & _ & _ & _ & F5 & _); [rewrite K5; exact Hdue|].
      rewrite K4, K5 in F1. rewrite K4, K5 in F5.
      rewrite Es, Eq. split; [exact F1|].
      rewrite F5, F1. reflexivity.
  - destruct (Hmono eq_refl) as (M1 & M2 & M3 & M4 & M5).
    repeat split; try assumption; discriminate.
Qed.

Lemma monotone_outside_reset_and_bonus_witness :
  is_reset OpCodeSaved = false
  /\ (level (developer worn_today)
      <= level (developer (step w_noon OpCodeSaved worn_today)))%Z.
Proof.
  split; [reflexivity|].
  exact (proj1 (proj2 (proj2
    (monotone_outside_reset_and_bonus w_noon OpCodeSaved worn_today
       eq_refl)))).
Defined.

(** ** Loading a save *)

(** C8: loading a save that lacks any of [inventory], [lastDailyBonus],
    [streak], [skills], [quests], [questStreak], [dailyQuestsCompleted],
    [tutorialCompleted] gives a state (the loader is total) in which each
    missing field has its default (empty list, 0 or false) and every
    field of the save keeps its value; loading with nothing saved gives
    the full default record. *)
Theorem load_backfills (w : World) (s : SavedState) :
  let d := loadDeveloper w (Some s) in
  energy d = sv_energy s /\ motivation d = sv_motivation s
  /\ focus d = sv_focus s /\ health d = sv_health s
  /\ xp d = sv_xp s /\ level d = sv_level s
  /\ lastUpdated d = sv_lastUpdated s /\ mood d = sv_mood s
  /\ role d = sv_role s /\ name d = sv_name s /\ coffee d = sv_coffee s
  /\ inventory d = present_or [] (sv_inventory s)
  /\ lastDailyBonus d = present_or 0%Z (sv_lastDailyBonus s)
  /\ streak d = present_or 0%Z (sv_streak s)
  /\ skills d = present_or [] (sv_skills s)
  /\ quests d = present_or [] (sv_quests s)
  /\ questStreak d = Some (present_or 0%Z (sv_questStreak s))
  /\ dailyQuestsCompleted d
     = Some (present_or false (sv_dailyQuestsCompleted s))
  /\ tutorialCompleted d = Some (present_or false (sv_tutorialCompleted s))
  /\ loadDeveloper w None
     = {| energy := 100; motivation := 100; focus := 100; health := 100;
          xp := 0; level := 1; lastUpdated := now w; mood := productive;
          role := "👨‍💻"; name := "Dev"; coffee := 50;
          skills := []; inventory := []; lastDailyBonus := 0; streak := 0;
          quests := []; questStreak := Some 0%Z;
          dailyQuestsCompleted := Some false;
          tutorialCompleted := Some false |}.
Proof.
  intros d. subst d. unfold loadDeveloper. simpl.
  do 11 (split; [reflexivity|]).
  split; [destruct (sv_inventory s); reflexivity|].
  split.
  { destruct (sv_lastDailyBonus s) as [n|]; [|reflexivity]. simpl.
    destruct (Z.eqb_spec n 0); congruence. }
  split.
  { destruct (sv_streak s) as [n|]; [|reflexivity]. simpl.
    destruct (Z.eqb_spec n 0); congruence. }
  split; [destruct (sv_skills s); reflexivity|].
  split; [destruct (sv_quests s); reflexivity|].
  split; [destruct (sv_questStreak s); reflexivity|].
  split; [destruct (sv_dailyQuestsCompleted s); reflexivity|].
  split; [destruct (sv_tutorialCompleted s); reflexivity|].
  reflexivity.
Qed.

(** ** Reset *)

(** C7 does not hold of the code: the record that [resetProgress] assigns
    has no [questStreak], [dailyQuestsCompleted] or [tutorialCompleted],
    which the default record of [loadDeveloper] sets to 0, false and
    false; after a confirmed reset [tutorialCompleted] is still undefined,
    for every earlier state and every clock. *)
Theorem reset_record_lacks_fields (w : World) (m : Manager) :
  questStreak (resetRecord w) = None
  /\ dailyQuestsCompleted (resetRecord w) = None
  /\ tutorialCompleted (resetRecord w) = None
  /\ questStreak (defaultDeveloper w) = Some 0%Z
  /\ dailyQuestsCompleted (defaultDeveloper w) = Some false
  /\ tutorialCompleted (defaultDeveloper w) = Some false
  /\ tutorialCompleted (developer (resetProgress w true m)) = None
  /\ tutorialCompleted (developer (newManager w None)) = Some false.
Proof.
  do 6 (split; [reflexivity|]).
  split.
  - unfold resetProgress.
    unfold updateStats, deriveStats.
    cbn [developer set_developer tutorialCompleted set_lastUpdated set_mood
         set_health].
    destruct (checkDailyBonus_core w
                (beforeDailyBonus w (set_developer (resetRecord w) m)))
      as (_ & _ & _ & _ & _ & _ & _ & _ & _ & C).
    rewrite C. unfold beforeDailyBonus.
    match goal with |- tutorialCompleted (trackCodingTime ?h ?d) = _ =>
      destruct (trackCodingTime_core h d)
        as ((_ & _ & _ & _ & _ & _ & _ & _ & _ & T) & _);
      rewrite T;
      destruct (decayStats_frame h (lastErrorCount m) (resetRecord w))
        as (_ & _ & _ & _ & _ & _ & _ & _ & _ & _ & _ & D)
    end.
    exact D.
  - unfold newManager, updateStats, deriveStats.
    cbn [developer set_developer tutorialCompleted set_lastUpdated set_mood
         set_health].
    match goal with |- tutorialCompleted (checkDailyBonus w ?d1) = _ =>
      destruct (checkDailyBonus_core w d1)
        as (_ & _ & _ & _ & _ & _ & _ & _ & _ & C); rewrite C
    end.
    unfold beforeDailyBonus.
    match goal with |- tutorialCompleted (trackCodingTime ?h ?d) = _ =>
      destruct (trackCodingTime_core h d)
        as ((_ & _ & _ & _ & _ & _ & _ & _ & _ & T) & _);
      rewrite T
    end.
    match goal with |- tutorialCompleted (decayStats ?h ?e ?d) = _ =>
      destruct (decayStats_frame h e d)
        as (_ & _ & _ & _ & _ & _ & _ & _ & _ & _ & _ & D); rewrite D
    end.
    reflexivity.
Qed.

(** At a concrete input: the avatar has done the tutorial; after the
    confirmed reset the flag is undefined, where a new engine has false.
    The two other fields that the literal lacks are set by the tick that
    follows, as they are in a new engine. *)
Lemma reset_after_tutorial :
  let d := developer (resetProgress w_noon true worn_today) in
  let fresh := developer (newManager w_noon None) in
  tutorialCompleted (developer worn_today) = Some true
  /\ tutorialCompleted d = None
  /\ tutorialCompleted fresh = Some false
  /\ questStreak d = questStreak fresh
  /\ dailyQuestsCompleted d = dailyQuestsCompleted fresh
  /\ coffee d = coffee fresh.
Proof. vm_compute. repeat split. Qed.

(** With no active error and a real clock, a confirmed reset leaves
    exactly the avatar of a newly constructed engine, but for
    [tutorialCompleted]. *)
Lemma reset_is_fresh_but_for_tutorial (w : World) (m : Manager) :
  (oneDay <= now w)%Z -> (lastErrorCount m <= 0)%Z ->
  set_tutorialCompleted (Some false) (developer (resetProgress w true m))
  = developer (newManager w None).
Proof.
  intros Hnow Herr.
  unfold resetProgress, newManager, updateStats, beforeDailyBonus,
    hoursPassed.
  cbn [developer set_developer loadDeveloper lastUpdated resetRecord
       defaultDeveloper lastErrorCount].
  rewrite Z.sub_diag.
  unfold decayStats.
  destruct (Z.ltb_spec 0 (lastErrorCount m)) as [|_]; [lia|].
  cbn -[checkDailyBonus deriveStats Qmax].
  unfold updateQuestProgress, checkDailyBonus.
  cbn -[deriveStats Qmax generateDailyQuests Z.leb Z.sub oneDay twoDays
        Z.ltb].
  rewrite Z.sub_0_r.
  destruct (Z.leb_spec oneDay (now w)) as [_|]; [|lia].
  reflexivity.
Qed.

(** * Further properties of the engine *)

(** ** The wallet *)

Lemma forEachQuest_wallet (ty : QuestType) (amount : Q) (qs : list Quest)
    (c : Z) :
  Forall (fun q => (0 <= q_reward q)%Z) qs ->
  Forall (fun q => (0 <= q_reward q)%Z) (fst (forEachQuest ty amount qs c))
  /\ (c <= snd (forEachQuest ty amount qs c))%Z.
Proof.
  intros H. revert c. induction H as [|q qs Hq _ IH]; intros c; simpl.
  - split; [constructor | lia].
  - destruct (QuestType_eqb (q_type q) ty && negb (q_completed q)).
    + destruct (Qle_bool (q_target q) (q_progress q + amount)); simpl.
      * destruct (IH (c + q_reward q)%Z) as (A & B).
        split; [constructor; [exact Hq | exact A] | lia].
      * destruct (IH c) as (A & B).
        split; [constructor; [exact Hq | exact A] | exact B].
    + simpl. destruct (IH c) as (A & B).
      split; [constructor; [exact Hq | exact A] | exact B].
Qed.

(** Quest progress only ever pays. *)
Lemma updateQuestProgress_wallet (ty : QuestType) (amount : Q)
    (d : Developer) :
  wallet_ok d ->
  wallet_ok (updateQuestProgress ty amount d)
  /\ (coffee d <= coffee (updateQuestProgress ty amount d))%Z.
Proof.
  intros (Hc & Hs & Hq & Hr).
  destruct (forEachQuest_wallet ty amount (quests d) (coffee d) Hr)
    as (A & B).
  remember (or0_opt (questStreak d)) as n eqn:En.
  remember (forEachQuest ty amount (quests d) (coffee d)) as r eqn:Er.
  unfold updateQuestProgress, wallet_ok. rewrite <- Er.
  match goal with |- context [if ?c then _ else _] => destruct c end;
    cbn [coffee streak questStreak quests set_coffee set_quests
         set_dailyQuestsCompleted set_questStreak or0_opt];
    rewrite ?or0_id, <- ?En; repeat split; try assumption; lia.
Qed.

Lemma templates_rewards :
  Forall (fun t => (0 <= t_reward t)%Z) templates.
Proof. unfold templates. repeat constructor; simpl; lia. Qed.

Lemma questsOf_rewards (stamp : Z) (ts : list QuestTemplate) (i : nat) :
  Forall (fun t => (0 <= t_reward t)%Z) ts ->
  Forall (fun q => (0 <= q_reward q)%Z) (questsOf stamp i ts).
Proof.
  intros H. revert i. induction H as [|t ts Ht _ IH]; intros i; simpl;
    constructor; [exact Ht | apply IH].
Qed.

Lemma fair_rewards (w : World) :
  fair w -> Forall (fun t => (0 <= t_reward t)%Z) (firstn 3 (shuffled w)).
Proof.
  intros Hf. apply Forall_forall. intros t Ht.
  destruct (fair_pick w Hf) as (_ & _ & Hin).
  exact (proj1 (Forall_forall _ _) templates_rewards t (Hin t Ht)).
Qed.

Lemma checkDailyBonus_wallet (w : World) (d : Developer) :
  fair w -> wallet_ok d ->
  wallet_ok (checkDailyBonus w d)
  /\ (coffee d <= coffee (checkDailyBonus w d))%Z.
Proof.
  intros Hf (Hc & Hs & Hq & Hr).
  destruct (Z_lt_le_dec (now w - lastDailyBonus d) oneDay) as [Hidle|Hdue].
  - rewrite (checkDailyBonus_idle w d Hidle).
    split; [repeat split; assumption | lia].
  - destruct (checkDailyBonus_fires w d Hdue) as (F1 & F2 & _ & F4 & F5 & _).
    set (s' := if (0 <? lastDailyBonus d)%Z
                  && (now w - lastDailyBonus d <? twoDays)%Z
               then (streak d + 1)%Z else 1%Z) in *.
    assert (Hs' : (1 <= s')%Z)
      by (unfold s'; destruct ((0 <? lastDailyBonus d)%Z
                  && (now w - lastDailyBonus d <? twoDays)%Z); lia).
    unfold wallet_ok. rewrite F1, F2, F4, F5.
    split; [|lia].
    repeat split; try lia.
    + destruct ((s' =? 1)%Z || negb (truthy (dailyQuestsCompleted d)));
        [cbn [or0_opt]; rewrite or0_id; apply Z.le_refl | exact Hq].
    + apply questsOf_rewards, fair_rewards, Hf.
Qed.

Lemma updateStats_wallet (w : World) (m : Manager) :
  fair w -> wallet_ok (developer m) ->
  wallet_ok (developer (updateStats w m))
  /\ (coffee (developer m) <= coffee (developer (updateStats w m)))%Z.
Proof.
  intros Hf Hw.
  assert (H1 : wallet_ok (beforeDailyBonus w m)
               /\ (coffee (developer m) <= coffee (beforeDailyBonus w m))%Z).
  { unfold beforeDailyBonus.
    set (h := hoursPassed w (developer m)).
    destruct (decayStats_frame h (lastErrorCount m) (developer m))
      as (_ & _ & _ & D1 & _ & _ & D2 & _ & D3 & D4 & _).
    assert (H0 : wallet_ok (decayStats h (lastErrorCount m) (developer m)))
      by (unfold wallet_ok; rewrite D1, D2, D3, D4; exact Hw).
    unfold trackCodingTime. destruct (Qlt_bool h 0.083).
    - destruct (updateQuestProgress_wallet QTime (h * 60) _ H0) as (A & B).
      split; [exact A | lia].
    - split; [exact H0 | lia]. }
  destruct H1 as (H1 & H2).
  destruct (checkDailyBonus_wallet w _ Hf H1) as (H3 & H4).
  split; [exact H3 | ].
  change (coffee (developer (updateStats w m)))
    with (coffee (checkDailyBonus w (beforeDailyBonus w m))).
  lia.
Qed.

Lemma wallet_ok_resetRecord (w : World) : wallet_ok (resetRecord w).
Proof. unfold wallet_ok. simpl. repeat split; try lia. constructor. Qed.

Lemma Qfloor_nonneg (x : Q) : 0 <= x -> (0 <= Qfloor x)%Z.
Proof. intros H. change 0%Z with (Qfloor 0). apply Qfloor_resp_le, H. Qed.

Lemma wallet_ok_step (w : World) (o : Op) (m : Manager) :
  fair w -> nonneg_score o ->
  wallet_ok (developer m) -> wallet_ok (developer (step w o m)).
Proof.
  intros Hf Hsc Hw. destruct o; unfold step.
  - apply updateStats_wallet; assumption.
  - unfold resetProgress. destruct confirmed; [|exact Hw].
    apply updateStats_wallet; [exact Hf | apply wallet_ok_resetRecord].
  - unfold giveCoffee.
    destruct (Z.ltb_spec (coffee (developer m)) 10); [exact Hw|].
    destruct Hw as (Hc & Hs & Hq & Hr).
    unfold wallet_ok; simpl; repeat split; try assumption; lia.
  - unfold takeBreak. destruct (_ && _); [exact Hw|].
    destruct Hw as (Hc & Hs & Hq & Hr).
    unfold wallet_ok; simpl; repeat split; assumption.
  - unfold onCodeSaved. cbv zeta. cbn [developer set_developer].
    apply updateQuestProgress_wallet.
    destruct Hw as (Hc & Hs & Hq & Hr).
    unfold wallet_ok; simpl; repeat split; try assumption; lia.
  - unfold onGitCommit. cbv zeta. cbn [developer set_developer].
    apply updateQuestProgress_wallet.
    destruct Hw as (Hc & Hs & Hq & Hr).
    unfold wallet_ok; simpl; repeat split; try assumption; lia.
  - exact Hw.
  - unfold updateErrorCount. cbv zeta. cbn [developer].
    destruct (currentErrors - lastErrorCount m <? 0)%Z.
    + apply updateQuestProgress_wallet.
      destruct Hw as (Hc & Hs & Hq & Hr).
      unfold wallet_ok; simpl; repeat split; assumption.
    + destruct (0 <? currentErrors - lastErrorCount m)%Z; exact Hw.
  - exact Hw.
  - unfold unlockSkill. destruct (find _ SKILLS) as [skill|]; [|exact Hw].
    destruct (includes _ _); [exact Hw|].
    destruct (Z.ltb_spec (coffee (developer m)) (sk_cost skill)); [exact Hw|].
    destruct Hw as (Hc & Hs & Hq & Hr).
    unfold wallet_ok; simpl; repeat split; try assumption; lia.
  - unfold buyItem. destruct (find _ SHOP_ITEMS) as [item|]; [|exact Hw].
    destruct (includes _ _); [exact Hw|].
    destruct (Z.ltb_spec (coffee (developer m)) (it_cost item)); [exact Hw|].
    destruct Hw as (Hc & Hs & Hq & Hr).
    destruct (it_type item), (it_emoji item);
      unfold wallet_ok; simpl; repeat split; try assumption; lia.
  - unfold equipItem. destruct (find _ SHOP_ITEMS) as [item|]; [|exact Hw].
    destruct (negb _); [exact Hw|].
    destruct (it_type item), (it_emoji item); exact Hw.
  - simpl in Hsc. unfold challengeCompleted. cbv zeta.
    cbn [fst developer set_developer].
    assert (Hfl : (0 <= Qfloor (score / 10))%Z).
    { apply Qfloor_nonneg. qconst. lra. }
    remember (Qfloor (score / 10)) as k.
    destruct Hw as (Hc & Hs & Hq & Hr).
    unfold wallet_ok; simpl; repeat split; try assumption; lia.
  - exact Hw.
Qed.

Lemma wallet_ok_new (w : World) :
  fair w -> wallet_ok (developer (newManager w None)).
Proof.
  intros Hf. unfold newManager. apply updateStats_wallet; [exact Hf|].
  unfold wallet_ok. cbn [developer loadDeveloper defaultDeveloper coffee
    streak questStreak quests or0_opt].
  rewrite or0_id. repeat split; try lia. constructor.
Qed.

(** ** XP stays normalised *)

Lemma xp_ok_addXP (amount : Q) (d : Developer) :
  0 <= amount -> stats_nonneg d -> xp_ok d -> xp_ok (addXP amount d).
Proof.
  intros Ha (He & Hf & Hm) (Hl & Hx).
  pose proof (xpGain_nonneg amount d Ha He Hf Hm) as Hg.
  pose proof (levelUp_spec (xp d + xpGain amount d) (level d))
    as (S1 & S2 & _ & S4).
  unfold xp_ok.
  change (xp (addXP amount d))
    with (fst (levelUp (xp d + xpGain amount d) (level d))).
  change (level (addXP amount d))
    with (snd (levelUp (xp d + xpGain amount d) (level d))).
  repeat split; try lia; apply S4; lia.
Qed.

Lemma xp_ok_core (d d' : Developer) : same_core d d' -> xp_ok d -> xp_ok d'.
Proof.
  unfold same_core, xp_ok.
  intros (_ & _ & _ & _ & Ex & El & _) H. rewrite Ex, El. exact H.
Qed.

Lemma breakXP_ge_5 (d : Developer) : (5 <= breakXP d)%Z.
Proof.
  unfold breakXP. change 5%Z with (Qfloor 5) at 1.
  apply Qfloor_resp_le, Q.le_max_l.
Qed.

Lemma challengeRawXP_nonneg (score : Q) : 0 <= score -> 0 <= challengeRawXP score.
Proof.
  intros H. unfold challengeRawXP. qconst.
  assert (H2 : 0 <= score * score) by nra.
  assert (H3 : 0 <= score * score * score) by nra.
  lra.
Qed.

Lemma inject_Z_nonneg (z : Z) : (0 <= z)%Z -> 0 <= inject_Z z.
Proof. intros H. change 0 with (inject_Z 0). rewrite <- Zle_Qle. exact H. Qed.

Lemma updateStats_same_core (w : World) (m : Manager) :
  xp (developer (updateStats w m)) = xp (developer m)
  /\ level (developer (updateStats w m)) = level (developer m).
Proof.
  unfold updateStats, beforeDailyBonus, deriveStats.
  cbn [developer set_developer xp level set_lastUpdated set_mood set_health].
  set (h := hoursPassed w (developer m)).
  set (d0 := decayStats h (lastErrorCount m) (developer m)).
  destruct (checkDailyBonus_core w (trackCodingTime h d0))
    as (_ & _ & _ & _ & C1 & C2 & _).
  destruct (trackCodingTime_core h d0)
    as ((_ & _ & _ & _ & T1 & T2 & _) & _).
  destruct (decayStats_frame h (lastErrorCount m) (developer m))
    as (_ & D1 & D2 & _).
  fold d0 in D1, D2. split; congruence.
Qed.

Lemma xp_ok_step (w : World) (o : Op) (m : Manager) :
  nonneg_score o -> stats_nonneg (developer m) ->
  xp_ok (developer m) -> xp_ok (developer (step w o m)).
Proof.
  intros Hsc Hst Hx. destruct o; unfold step.
  - destruct (updateStats_same_core w m) as (E1 & E2).
    unfold xp_ok. rewrite E1, E2. exact Hx.
  - unfold resetProgress. destruct confirmed; [|exact Hx].
    destruct (updateStats_same_core w (set_developer (resetRecord w) m))
      as (E1 & E2).
    unfold xp_ok. rewrite E1, E2. simpl. lia.
  - unfold giveCoffee. destruct (_ <? _)%Z; [exact Hx|].
    cbv zeta. cbn [fst developer set_developer].
    apply xp_ok_addXP; [lra | | exact Hx].
    destruct (includes _ _); stat_bound.
  - unfold takeBreak. destruct (_ && _); [exact Hx|].
    cbv zeta. cbn [fst developer set_developer].
    assert (H : xp_ok (addXP (inject_Z (breakXP (developer m))) (developer m))).
    { apply xp_ok_addXP; [|exact Hst|exact Hx].
      apply inject_Z_nonneg. pose proof (breakXP_ge_5 (developer m)). lia. }
    exact H.
  - unfold onCodeSaved. cbv zeta. cbn [developer set_developer].
    eapply xp_ok_core; [apply updateQuestProgress_core|].
    apply xp_ok_addXP; [lra | stat_bound | exact Hx].
  - unfold onGitCommit. cbv zeta. cbn [developer set_developer].
    eapply xp_ok_core; [apply updateQuestProgress_core|].
    apply xp_ok_addXP; [lra | stat_bound | exact Hx].
  - exact Hx.
  - unfold updateErrorCount. cbv zeta. cbn [developer].
    destruct (currentErrors - lastErrorCount m <? 0)%Z.
    + eapply xp_ok_core; [apply updateQuestProgress_core|].
      assert (H : xp_ok (addXP
                    (inject_Z (Z.abs (currentErrors - lastErrorCount m) * 5
                               * (if includes (skills (developer m))
                                       "bug_slayer" then 2 else 1)))
                    (developer m))).
      { apply xp_ok_addXP; [|exact Hst|exact Hx].
        apply inject_Z_nonneg.
        pose proof (Z.abs_nonneg (currentErrors - lastErrorCount m)).
        destruct (includes _ _); lia. }
      exact H.
    + destruct (0 <? currentErrors - lastErrorCount m)%Z; exact Hx.
  - exact Hx.
  - unfold unlockSkill. destruct (find _ SKILLS); [|exact Hx].
    destruct (includes _ _); [exact Hx|].
    destruct (_ <? _)%Z; exact Hx.
  - unfold buyItem. destruct (find _ SHOP_ITEMS) as [item|]; [|exact Hx].
    destruct (includes _ _); [exact Hx|].
    destruct (_ <? _)%Z; [exact Hx|].
    destruct (it_type item), (it_emoji item); exact Hx.
  - unfold equipItem. destruct (find _ SHOP_ITEMS) as [item|]; [|exact Hx].
    destruct (negb _); [exact Hx|].
    destruct (it_type item), (it_emoji item); exact Hx.
  - simpl in Hsc. unfold challengeCompleted. cbv zeta.
    cbn [fst developer set_developer].
    apply xp_ok_addXP; [apply challengeRawXP_nonneg, Hsc | stat_bound
                       | exact Hx].
  - exact Hx.
Qed.

(** ** The stats are percentages *)

Lemma hoursPassed_nonneg (w : World) (d : Developer) :
  (lastUpdated d <= now w)%Z -> 0 <= hoursPassed w d.
Proof.
  intros H. unfold hoursPassed.
  assert (H1 : 0 <= inject_Z (now w - lastUpdated d))
    by (apply inject_Z_nonneg; lia).
  qconst. lra.
Qed.

Lemma Qmax0_sub (x k : Q) :
  0 <= x -> 0 <= k -> 0 <= Qmax 0 (x - k) /\ Qmax 0 (x - k) <= x.
Proof.
  intros Hx Hk. split; [apply Qmax0_nonneg|].
  apply Q.max_lub; lra.
Qed.

(** Decay and stress only take away, and never below zero. *)
Lemma decayStats_lowers (h : Q) (errors : Z) (d : Developer) :
  0 <= h -> stats_nonneg d ->
  let d' := decayStats h errors d in
  (0 <= energy d' /\ energy d' <= energy d)
  /\ (0 <= motivation d' /\ motivation d' <= motivation d)
  /\ (0 <= focus d' /\ focus d' <= focus d).
Proof.
  intros Hh (He & Hf & Hm) d'. subst d'. unfold decayStats.
  set (re := if includes (inventory d) "furn_chair" then 4 * 0.85 else 4).
  set (rm := if includes (inventory d) "acc_keyboard" then 2 * 0.85 else 2).
  set (rf := if includes (skills d) "iron_focus" then 2.1 else 3).
  assert (Hre : 0 <= h * re)
    by (apply Qmult_le_0_compat; [exact Hh | unfold re; destruct (includes (inventory d) "furn_chair"); lra]).
  assert (Hrm : 0 <= h * rm)
    by (apply Qmult_le_0_compat; [exact Hh | unfold rm; destruct (includes (inventory d) "acc_keyboard"); lra]).
  assert (Hrf : 0 <= h * rf)
    by (apply Qmult_le_0_compat; [exact Hh | unfold rf; destruct (includes (skills d) "iron_focus"); lra]).
  destruct (Qmax0_sub (energy d) (h * re) He Hre) as (E1 & E2).
  destruct (Qmax0_sub (motivation d) (h * rm) Hm Hrm) as (M1 & M2).
  destruct (Qmax0_sub (focus d) (h * rf) Hf Hrf) as (F1 & F2).
  destruct (Z.ltb_spec 0 errors) as [Hpos|_]; simpl.
  - assert (Hs : 0 <= inject_Z errors * 0.05).
    { pose proof (inject_Z_nonneg errors ltac:(lia)). lra. }
    destruct (Qmax0_sub _ _ E1 Hs) as (E3 & E4).
    destruct (Qmax0_sub _ _ M1 Hs) as (M3 & M4).
    repeat split; try assumption; lra.
  - repeat split; assumption.
Qed.

(** X1: a tick never raises a stat and never takes one below zero, when
    the clock has not gone back. *)
Theorem tick_never_raises_stats (w : World) (m : Manager) :
  (lastUpdated (developer m) <= now w)%Z ->
  stats_nonneg (developer m) ->
  let d := developer m in
  let d' := developer (updateStats w m) in
  (0 <= energy d' /\ energy d' <= energy d)
  /\ (0 <= motivation d' /\ motivation d' <= motivation d)
  /\ (0 <= focus d' /\ focus d' <= focus d).
Proof.
  intros Hclock Hst d d'.
  destruct (updateStats_stats w m) as (E1 & E2 & E3).
  fold d' in E1, E2, E3. rewrite E1, E2, E3.
  apply decayStats_lowers; [apply hoursPassed_nonneg, Hclock | exact Hst].
Qed.

Lemma tick_never_raises_stats_witness :
  (lastUpdated (developer worn_today) <= now w_hour_later)%Z
  /\ stats_nonneg (developer worn_today)
  /\ energy (developer (updateStats w_hour_later worn_today))
     <= energy (developer worn_today).
Proof.
  assert (H1 : (lastUpdated (developer worn_today) <= now w_hour_later)%Z)
    by (vm_compute; intro H; discriminate H).
  assert (H2 : stats_nonneg (developer worn_today))
    by (unfold stats_nonneg; simpl; repeat split; lra).
  split; [exact H1|]. split; [exact H2|].
  exact (proj2 (proj1 (tick_never_raises_stats w_hour_later worn_today
                         H1 H2))).
Defined.

Lemma stats_in_range_nonneg (d : Developer) :
  stats_in_range d -> stats_nonneg d.
Proof. intros ((A & _) & (B & _) & (C & _)). repeat split; assumption. Qed.

Lemma stats_in_range_core (d d' : Developer) :
  same_core d d' -> stats_in_range d -> stats_in_range d'.
Proof.
  unfold same_core, stats_in_range.
  intros (E1 & E2 & E3 & _) H. rewrite E1, E2, E3. exact H.
Qed.

Lemma Qmin100_range (x : Q) :
  0 <= x -> 0 <= Qmin 100 x /\ Qmin 100 x <= 100.
Proof.
  intros H. split; [apply Qmin100_nonneg, H | apply Q.le_min_l].
Qed.

Lemma Qmax0_range (x k : Q) :
  0 <= x -> x <= 100 -> 0 <= k -> 0 <= Qmax 0 (x - k) /\ Qmax 0 (x - k) <= 100.
Proof.
  intros H1 H2 H3. destruct (Qmax0_sub x k H1 H3). split; [assumption|lra].
Qed.

Ltac range_bound :=
  unfold stats_in_range in *; simpl;
  repeat match goal with H : _ /\ _ |- _ => destruct H end;
  repeat match goal with
         | |- _ /\ _ => split
         end;
  first [ assumption
        | apply Qmin100_nonneg; lra
        | apply Q.le_min_l
        | apply Qmax0_nonneg
        | apply Qmax0_range; first [assumption | lra] ].

Lemma updateStats_in_range (w : World) (m : Manager) :
  (lastUpdated (developer m) <= now w)%Z ->
  stats_in_range (developer m) ->
  stats_in_range (developer (updateStats w m))
  /\ 0 <= health (developer (updateStats w m))
  /\ health (developer (updateStats w m)) <= 100.
Proof.
  intros Hclock Hr.
  destruct (updateStats_stats w m) as (E1 & E2 & E3).
  destruct (decayStats_lowers (hoursPassed w (developer m))
              (lastErrorCount m) (developer m)
              (hoursPassed_nonneg w _ Hclock) (stats_in_range_nonneg _ Hr))
    as ((A1 & A2) & (B1 & B2) & (C1 & C2)).
  rewrite <- E1 in A1, A2. rewrite <- E2 in B1, B2. rewrite <- E3 in C1, C2.
  destruct Hr as ((_ & R1) & (_ & R2) & (_ & R3)).
  change (health (developer (updateStats w m)))
    with ((energy (developer (updateStats w m))
           + motivation (developer (updateStats w m))
           + focus (developer (updateStats w m))) / 3).
  unfold stats_in_range.
  repeat split; try assumption; try lra; qconst; lra.
Qed.

(** X2: the three stats stay within 0 and 100 under every call, and the
    health that a tick computes is within 0 and 100 too. *)
Theorem stats_stay_in_range (w : World) (o : Op) (m : Manager) :
  (lastUpdated (developer m) <= now w)%Z ->
  stats_in_range (developer m) ->
  stats_in_range (developer (step w o m))
  /\ (is_tick o = true ->
      0 <= health (developer (step w o m))
      /\ health (developer (step w o m)) <= 100).
Proof.
  intros Hclock Hr. split.
  - destruct o; unfold step.
    + apply updateStats_in_range; assumption.
    + unfold resetProgress. destruct confirmed; [|exact Hr].
      apply updateStats_in_range; [simpl; lia|].
      unfold stats_in_range. simpl. repeat split; lra.
    + unfold giveCoffee. destruct (_ <? _)%Z; [exact Hr|].
      cbv zeta. cbn [fst developer set_developer].
      change (stats_in_range (addXP 5 ?d)) with (stats_in_range d).
      destruct (includes _ _); range_bound.
    + unfold takeBreak. destruct (_ && _); [exact Hr|].
      cbv zeta. cbn [fst developer set_developer].
      assert (H : stats_in_range
                    (addXP (inject_Z (breakXP (developer m))) (developer m)))
        by exact Hr.
      range_bound.
    + unfold onCodeSaved. cbv zeta. cbn [developer set_developer].
      eapply stats_in_range_core; [apply updateQuestProgress_core|].
      change (stats_in_range (addXP 3 ?d)) with (stats_in_range d).
      range_bound.
    + unfold onGitCommit. cbv zeta. cbn [developer set_developer].
      eapply stats_in_range_core; [apply updateQuestProgress_core|].
      change (stats_in_range (addXP 50 ?d)) with (stats_in_range d).
      range_bound.
    + exact Hr.
    + unfold updateErrorCount. cbv zeta. cbn [developer].
      destruct (Z.ltb_spec (currentErrors - lastErrorCount m) 0).
      * eapply stats_in_range_core; [apply updateQuestProgress_core|].
        assert (H' : stats_in_range
                      (addXP
                         (inject_Z (Z.abs (currentErrors - lastErrorCount m)
                                    * 5
                                    * (if includes (skills (developer m))
                                            "bug_slayer" then 2 else 1)))
                         (developer m))) by exact Hr.
        assert (Hfix : 0 <= inject_Z
                              (Z.abs (currentErrors - lastErrorCount m)))
          by (apply inject_Z_nonneg, Z.abs_nonneg).
        range_bound.
      * destruct (Z.ltb_spec 0 (currentErrors - lastErrorCount m));
          [|exact Hr].
        assert (Hd : 0 <= inject_Z (currentErrors - lastErrorCount m) * 0.5).
        { pose proof (inject_Z_nonneg (currentErrors - lastErrorCount m)
                        ltac:(lia)). lra. }
        range_bound.
    + exact Hr.
    + unfold unlockSkill. destruct (find _ SKILLS); [|exact Hr].
      destruct (includes _ _); [exact Hr|].
      destruct (_ <? _)%Z; exact Hr.
    + unfold buyItem. destruct (find _ SHOP_ITEMS) as [item|]; [|exact Hr].
      destruct (includes _ _); [exact Hr|].
      destruct (_ <? _)%Z; [exact Hr|].
      destruct (it_type item), (it_emoji item); exact Hr.
    + unfold equipItem. destruct (find _ SHOP_ITEMS) as [item|]; [|exact Hr].
      destruct (negb _); [exact Hr|].
      destruct (it_type item), (it_emoji item); exact Hr.
    + unfold challengeCompleted. cbv zeta.
      cbn [fst developer set_developer].
      change (stats_in_range (addXP ?a ?d)) with (stats_in_range d).
      range_bound.
    + exact Hr.
  - intros Ht. destruct o; try discriminate. unfold step.
    apply updateStats_in_range; assumption.
Qed.

Lemma stats_stay_in_range_witness :
  (lastUpdated (developer worn_today) <= now w_hour_later)%Z
  /\ stats_in_range (developer worn_today)
  /\ stats_in_range (developer (step w_hour_later OpTick worn_today)).
Proof.
  assert (H1 : (lastUpdated (developer worn_today) <= now w_hour_later)%Z)
    by (vm_compute; intro H; discriminate H).
  assert (H2 : stats_in_range (developer worn_today))
    by (unfold stats_in_range; simpl; repeat split; lra).
  split; [exact H1|]. split; [exact H2|].
  exact (proj1 (stats_stay_in_range w_hour_later OpTick worn_today H1 H2)).
Defined.

(** ** Quests *)

Lemma QuestType_eqb_spec (a b : QuestType) :
  QuestType_eqb a b = true <-> a = b.
Proof. destruct a, b; simpl; split; intros H; congruence. Qed.

Lemma forEachQuest_advanced (ty : QuestType) (amount : Q) (qs : list Quest)
    (c : Z) :
  Forall2 (quest_advanced ty amount) qs (fst (forEachQuest ty amount qs c)).
Proof.
  revert c. induction qs as [|q qs IH]; intros c; simpl; [constructor|].
  destruct (QuestType_eqb (q_type q) ty) eqn:Et;
    destruct (q_completed q) eqn:Ec; simpl.
  - constructor; [|apply IH].
    unfold quest_advanced. repeat split; try congruence.
  - apply QuestType_eqb_spec in Et.
    destruct (Qle_bool (q_target q) (q_progress q + amount)) eqn:El; simpl;
      (constructor; [|apply IH]); unfold quest_advanced; simpl;
      repeat split; try congruence;
      try (exfalso; apply Qle_bool_iff in El; lra);
      exfalso;
      match goal with H : _ <= _ |- _ =>
        apply Qle_bool_iff in H; congruence end.
  - constructor; [|apply IH].
    unfold quest_advanced. repeat split; try congruence.
  - constructor; [|apply IH].
    assert (Hne : q_type q <> ty).
    { intros E. apply QuestType_eqb_spec in E. congruence. }
    unfold quest_advanced. repeat split; try congruence.
Qed.

Lemma updateQuestProgress_quests (ty : QuestType) (amount : Q)
    (d : Developer) :
  quests (updateQuestProgress ty amount d)
  = fst (forEachQuest ty amount (quests d) (coffee d)).
Proof.
  unfold updateQuestProgress.
  match goal with |- context [if ?c then _ else _] => destruct c end;
    reflexivity.
Qed.

(** X3: quests are only ever advanced: same quests in the same order,
    completed ones and those of another type untouched, the others moved
    by [amount] and latched at the target. *)
Theorem quests_only_advance (ty : QuestType) (amount : Q) (d : Developer) :
  Forall2 (quest_advanced ty amount) (quests d)
          (quests (updateQuestProgress ty amount d))
  /\ List.length (quests (updateQuestProgress ty amount d))
     = List.length (quests d).
Proof.
  rewrite updateQuestProgress_quests.
  pose proof (forEachQuest_advanced ty amount (quests d) (coffee d)) as H.
  split; [exact H|]. symmetry. exact (Forall2_length H).
Qed.

Lemma quest_advanced_ok (ty : QuestType) (amount : Q) (q q' : Quest) :
  quest_advanced ty amount q q' -> quest_ok q -> quest_ok q'.
Proof.
  intros (_ & _ & _ & Et & _ & Hc & Hty & Hadv) (H1 & H2).
  destruct (q_completed q) eqn:Ec.
  - rewrite (Hc eq_refl). split; [exact H1|]. intros _. apply H2.
    reflexivity.
  - destruct (QuestType_eqb (q_type q) ty) eqn:Ety.
    + apply QuestType_eqb_spec in Ety.
      destruct (Hadv eq_refl Ety) as (A & B).
      destruct (Qlt_le_dec (q_progress q + amount) (q_target q)) as [Hlt|Hle].
      * destruct (B Hlt) as (B1 & B2). unfold quest_ok.
        rewrite B1, B2, Et. split; [lra | discriminate].
      * destruct (A Hle) as (A1 & A2). unfold quest_ok.
        rewrite A2, Et. split; [lra | reflexivity].
    + assert (Hne : q_type q <> ty).
      { intros E. apply QuestType_eqb_spec in E. congruence. }
      rewrite (Hty Hne). split; [exact H1|].
      intros E. rewrite Ec in E. discriminate.
Qed.

(** X4: progress never passes the target, and a completed quest sits
    exactly on it. *)
Theorem quest_progress_capped (ty : QuestType) (amount : Q) (d : Developer) :
  Forall quest_ok (quests d) ->
  Forall quest_ok (quests (updateQuestProgress ty amount d)).
Proof.
  intros H.
  pose proof (forEachQuest_advanced ty amount (quests d) (coffee d)) as HA.
  rewrite <- updateQuestProgress_quests in HA.
  revert H. induction HA as [|q q' qs qs' Hq _ IH]; intros H;
    [constructor|].
  inversion H; subst. constructor; [|apply IH; assumption].
  eapply quest_advanced_ok; eassumption.
Qed.

Lemma quest_progress_capped_witness :
  Forall quest_ok (quests (developer worn_with_quests))
  /\ Forall quest_ok
       (quests (updateQuestProgress QTime 25 (developer worn_with_quests))).
Proof.
  assert (H1 : Forall quest_ok (quests (developer worn_with_quests))).
  { simpl. repeat apply Forall_cons; try apply Forall_nil;
      (split; simpl; [lra | intro H; discriminate H]). }
  split; [exact H1|].
  exact (quest_progress_capped QTime 25 (developer worn_with_quests) H1).
Defined.

Lemma forEachQuest_paid (ty : QuestType) (amount : Q) (qs : list Quest)
    (c : Z) :
  (snd (forEachQuest ty amount qs c)
   = c + (earned (fst (forEachQuest ty amount qs c)) - earned qs))%Z.
Proof.
  revert c. induction qs as [|q qs IH]; intros c; simpl; [lia|].
  destruct (QuestType_eqb (q_type q) ty); destruct (q_completed q) eqn:Ec;
    simpl.
  - rewrite Ec, IH. lia.
  - destruct (Qle_bool (q_target q) (q_progress q + amount)); simpl.
    + rewrite IH. lia.
    + rewrite Ec, IH. lia.
  - rewrite Ec, IH. lia.
  - rewrite Ec, IH. lia.
Qed.

(** X5: a reward is paid once, when its quest completes; the only other
    payment is the bonus for the whole set. *)
Theorem quest_rewards_paid_once (ty : QuestType) (amount : Q)
    (d : Developer) :
  let d' := updateQuestProgress ty amount d in
  let newly := (earned (quests d') - earned (quests d))%Z in
  (truthy (dailyQuestsCompleted d') = truthy (dailyQuestsCompleted d) ->
   coffee d' = (coffee d + newly)%Z /\ questStreak d' = questStreak d)
  /\ (truthy (dailyQuestsCompleted d') <> truthy (dailyQuestsCompleted d) ->
      dailyQuestsCompleted d' = Some true
      /\ forallb q_completed (quests d') = true
      /\ questStreak d' = Some (or0_opt (questStreak d) + 1)%Z
      /\ coffee d'
         = (coffee d + newly + 50 + (or0_opt (questStreak d) + 1) * 10)%Z).
Proof.
  intros d' newly. subst newly d'.
  rewrite updateQuestProgress_quests.
  pose proof (forEachQuest_paid ty amount (quests d) (coffee d)) as Hp.
  unfold updateQuestProgress.
  set (r := forEachQuest ty amount (quests d) (coffee d)) in *.
  cbn [dailyQuestsCompleted quests set_coffee set_quests].
  destruct (truthy (dailyQuestsCompleted d)) eqn:Ef; cbn [negb andb].
  - cbn [coffee questStreak dailyQuestsCompleted quests set_coffee
         set_quests].
    rewrite ?Ef. split; [|intros H; congruence].
    intros _. split; [exact Hp|reflexivity].
  - destruct ((0 <? List.length (fst r))%nat && forallb q_completed (fst r))
      eqn:Ec;
      cbn [coffee questStreak dailyQuestsCompleted quests set_coffee
           set_questStreak set_dailyQuestsCompleted set_quests truthy].
    + split; [intros H; discriminate|]. intros _.
      apply andb_prop in Ec. destruct Ec as (_ & Ec).
      repeat split; try assumption. rewrite Hp. lia.
    + rewrite ?Ef.
      split; [|intros H; congruence]. intros _.
      split; [exact Hp|reflexivity].
Qed.

Lemma updateQuestProgress_flag (ty : QuestType) (amount : Q)
    (d : Developer) :
  let d' := updateQuestProgress ty amount d in
  (truthy (dailyQuestsCompleted d) = true ->
   truthy (dailyQuestsCompleted d') = true
   /\ questStreak d' = questStreak d)
  /\ (truthy (dailyQuestsCompleted d) = false ->
      (truthy (dailyQuestsCompleted d') = false
       /\ questStreak d' = questStreak d)
      \/ (truthy (dailyQuestsCompleted d') = true
          /\ or0_opt (questStreak d') = (or0_opt (questStreak d) + 1)%Z)).
Proof.
  intros d'. subst d'. unfold updateQuestProgress.
  cbn [dailyQuestsCompleted quests set_coffee set_quests].
  destruct (truthy (dailyQuestsCompleted d)) eqn:Ef; simpl.
  - rewrite Ef. split; [intros _; split; reflexivity | discriminate].
  - split; [discriminate|]. intros _.
    match goal with |- context [if ?c then _ else _] => destruct c end;
      simpl.
    + right. split; [reflexivity | apply or0_id].
    + left. rewrite Ef. split; reflexivity.
Qed.

(** X6: however many quest updates follow one another within a day, the
    bonus for the whole set is paid at most once. *)
Theorem set_bonus_at_most_once (us : list (QuestType * Q)) (d : Developer) :
  let d' := questUpdates us d in
  (or0_opt (questStreak d) <= or0_opt (questStreak d')
   <= or0_opt (questStreak d) + 1)%Z
  /\ (truthy (dailyQuestsCompleted d) = true ->
      questStreak d' = questStreak d).
Proof.
  intros d'. subst d'.
  assert (J : forall us d,
     (truthy (dailyQuestsCompleted d) = true ->
      questStreak (questUpdates us d) = questStreak d)
     /\ (truthy (dailyQuestsCompleted d) = false ->
         (or0_opt (questStreak d) <= or0_opt (questStreak (questUpdates us d))
          <= or0_opt (questStreak d) + 1)%Z)).
  { clear. induction us as [|(ty, a) us IH]; intros d; simpl.
    - split; intros _; [reflexivity | lia].
    - destruct (updateQuestProgress_flag ty a d) as (A & B).
      destruct (IH (updateQuestProgress ty a d)) as (I1 & I2).
      split.
      + intros Ef. destruct (A Ef) as (A1 & A2). rewrite (I1 A1). exact A2.
      + intros Ef. destruct (B Ef) as [(B1 & B2)|(B1 & B2)].
        * specialize (I2 B1). rewrite B2 in I2. exact I2.
        * rewrite (I1 B1). lia. }
  destruct (J us d) as (J1 & J2).
  split; [|exact J1].
  destruct (truthy (dailyQuestsCompleted d)) eqn:Ef.
  - rewrite (J1 eq_refl). lia.
  - apply J2. reflexivity.
Qed.

(** ** Skills and the shop *)

Lemma includes_In (arr : list string) (s : string) :
  includes arr s = true <-> In s arr.
Proof.
  unfold includes. rewrite existsb_exists. split.
  - intros (x & Hx & E). apply String.eqb_eq in E. subst. exact Hx.
  - intros H. exists s. split; [exact H | apply String.eqb_refl].
Qed.

Lemma includes_app_self (arr : list string) (s : string) :
  includes (arr ++ [s]) s = true.
Proof. apply includes_In, in_or_app. right. left. reflexivity. Qed.

Lemma find_skill (i : string) (skill : Skill) :
  find (fun s => String.eqb (sk_id s) i) SKILLS = Some skill ->
  In skill SKILLS /\ sk_id skill = i.
Proof.
  intros H. apply find_some in H. destruct H as (H1 & H2).
  split; [exact H1 | apply String.eqb_eq, H2].
Qed.

Lemma find_item (i : string) (item : ShopItem) :
  find (fun s => String.eqb (it_id s) i) SHOP_ITEMS = Some item ->
  In item SHOP_ITEMS /\ it_id item = i.
Proof.
  intros H. apply find_some in H. destruct H as (H1 & H2).
  split; [exact H1 | apply String.eqb_eq, H2].
Qed.

(** X7: a refused action changes nothing; coffee is refused exactly
    below 10 beans and a break exactly when energy and motivation are
    both full. *)
Theorem refused_actions_change_nothing (m : Manager) (i : string) :
  (success (snd (giveCoffee m)) = false -> fst (giveCoffee m) = m)
  /\ (success (snd (takeBreak m)) = false -> fst (takeBreak m) = m)
  /\ (success (snd (unlockSkill i m)) = false -> fst (unlockSkill i m) = m)
  /\ (success (snd (buyItem i m)) = false -> fst (buyItem i m) = m)
  /\ (success (snd (equipItem i m)) = false -> fst (equipItem i m) = m)
  /\ (success (snd (giveCoffee m)) = false
      <-> (coffee (developer m) < 10)%Z)
  /\ (success (snd (takeBreak m)) = false
      <-> energy (developer m) == 100 /\ motivation (developer m) == 100).
Proof.
  split.
  { unfold giveCoffee. destruct (_ <? _)%Z; [reflexivity | discriminate]. }
  split.
  { unfold takeBreak. destruct (_ && _); [reflexivity | discriminate]. }
  split.
  { unfold unlockSkill. destruct (find _ SKILLS); [|reflexivity].
    destruct (includes _ _); [reflexivity|].
    destruct (_ <? _)%Z; [reflexivity | discriminate]. }
  split.
  { unfold buyItem. destruct (find _ SHOP_ITEMS) as [item|]; [|reflexivity].
    destruct (includes _ _); [reflexivity|].
    destruct (_ <? _)%Z; [reflexivity | discriminate]. }
  split.
  { unfold equipItem. destruct (find _ SHOP_ITEMS) as [item|]; [|reflexivity].
    destruct (negb _); [reflexivity|].
    destruct (it_type item), (it_emoji item); try reflexivity; discriminate. }
  split.
  { unfold giveCoffee.
    destruct (Z.ltb_spec (coffee (developer m)) 10); simpl; split;
      intros; try reflexivity; try assumption; try discriminate; lia. }
  unfold takeBreak.
  destruct (Qeq_bool (energy (developer m)) 100) eqn:E1;
    destruct (Qeq_bool (motivation (developer m)) 100) eqn:E2; simpl;
    split; intros H; try reflexivity; try discriminate.
  - split; apply Qeq_bool_iff; assumption.
  - destruct H as (_ & H). apply Qeq_bool_iff in H. congruence.
  - destruct H as (H & _). apply Qeq_bool_iff in H. congruence.
  - destruct H as (H & _). apply Qeq_bool_iff in H. congruence.
Qed.

(** X8: a purchase costs its catalog price once; asking for the same
    skill or item again is refused. *)
Theorem purchases_charge_once (i : string) (m : Manager) :
  let d := developer m in
  (success (snd (unlockSkill i m)) = true ->
   exists skill : Skill,
     In skill SKILLS /\ sk_id skill = i /\ ~ In i (skills d)
     /\ (sk_cost skill <= coffee d)%Z
     /\ coffee (developer (fst (unlockSkill i m)))
        = (coffee d - sk_cost skill)%Z
     /\ skills (developer (fst (unlockSkill i m))) = skills d ++ [i])
  /\ (success (snd (buyItem i m)) = true ->
      exists item : ShopItem,
        In item SHOP_ITEMS /\ it_id item = i /\ ~ In i (inventory d)
        /\ (it_cost item <= coffee d)%Z
        /\ coffee (developer (fst (buyItem i m)))
           = (coffee d - it_cost item)%Z
        /\ inventory (developer (fst (buyItem i m))) = inventory d ++ [i])
  /\ success (snd (unlockSkill i (fst (unlockSkill i m)))) = false
  /\ success (snd (buyItem i (fst (buyItem i m)))) = false.
Proof.
  intros d. subst d. split; [|split; [|split]].
  - unfold unlockSkill.
    destruct (find _ SKILLS) as [skill|] eqn:Ef; [|discriminate].
    destruct (includes (skills (developer m)) i) eqn:Ei; [discriminate|].
    destruct (Z.ltb_spec (coffee (developer m)) (sk_cost skill));
      [discriminate|].
    intros _. exists skill. destruct (find_skill i skill Ef) as (A & B).
    repeat split; try assumption.
    intros Hin. apply includes_In in Hin. congruence.
  - unfold buyItem.
    destruct (find _ SHOP_ITEMS) as [item|] eqn:Ef; [|discriminate].
    destruct (includes (inventory (developer m)) i) eqn:Ei; [discriminate|].
    destruct (Z.ltb_spec (coffee (developer m)) (it_cost item));
      [discriminate|].
    intros _. exists item. destruct (find_item i item Ef) as (A & B).
    split; [exact A|]. split; [exact B|].
    split; [intros Hin; apply includes_In in Hin; congruence|].
    split; [assumption|].
    destruct (it_type item), (it_emoji item); split; reflexivity.
  - unfold unlockSkill at 2.
    destruct (find _ SKILLS) as [skill|] eqn:Ef;
      [|unfold unlockSkill; rewrite Ef; reflexivity].
    destruct (includes (skills (developer m)) i) eqn:Ei;
      [unfold unlockSkill; cbn [fst]; rewrite Ef, Ei; reflexivity|].
    destruct (coffee (developer m) <? sk_cost skill)%Z eqn:Ec;
      [unfold unlockSkill; cbn [fst]; rewrite Ef, Ei, Ec; reflexivity|].
    unfold unlockSkill. rewrite Ef. cbn [fst developer set_developer skills
      set_skills set_coffee]. rewrite includes_app_self. reflexivity.
  - unfold buyItem at 2.
    destruct (find _ SHOP_ITEMS) as [item|] eqn:Ef;
      [|unfold buyItem; rewrite Ef; reflexivity].
    destruct (includes (inventory (developer m)) i) eqn:Ei;
      [unfold buyItem; cbn [fst]; rewrite Ef, Ei; reflexivity|].
    destruct (coffee (developer m) <? it_cost item)%Z eqn:Ec;
      [unfold buyItem; cbn [fst]; rewrite Ef, Ei, Ec; reflexivity|].
    unfold buyItem. rewrite Ef.
    assert (Hinc : forall d', inventory d' = inventory (developer m) ++ [i] ->
                   includes (inventory d') i = true)
      by (intros d' E; rewrite E; apply includes_app_self).
    destruct (it_type item), (it_emoji item);
      cbn [fst developer set_developer];
      rewrite Hinc by reflexivity; reflexivity.
Qed.

Lemma NoDup_snoc (l : list string) (s : string) :
  NoDup l -> ~ In s l -> NoDup (l ++ [s]).
Proof.
  intros Hn Hs. apply NoDup_app.
  - exact Hn.
  - constructor; [intros [] | constructor].
  - intros x Hx [E|[]]. subst. exact (Hs Hx).
Qed.

Lemma incl_snoc (l cat : list string) (s : string) :
  incl l cat -> In s cat -> incl (l ++ [s]) cat.
Proof.
  intros Hl Hs x Hx. apply in_app_or in Hx.
  destruct Hx as [Hx|[E|[]]]; [apply Hl, Hx | subst; exact Hs].
Qed.

Lemma updateStats_owned (w : World) (m : Manager) :
  skills (developer (updateStats w m)) = skills (developer m)
  /\ inventory (developer (updateStats w m)) = inventory (developer m).
Proof.
  destruct (updateStats_core w m) as (A & B & _). split; assumption.
Qed.

Lemma owned_ok_step (w : World) (o : Op) (m : Manager) :
  owned_ok (developer m) -> owned_ok (developer (step w o m)).
Proof.
  intros H.
  { destruct o; unfold step.
    - destruct (updateStats_owned w m) as (A & B).
      unfold owned_ok. rewrite A, B. exact H.
    - unfold resetProgress. destruct confirmed; [|exact H].
      destruct (updateStats_owned w (set_developer (resetRecord w) m))
        as (A & B).
      unfold owned_ok. rewrite A, B. simpl.
      repeat split; try apply NoDup_nil; intros x [].
    - unfold giveCoffee. destruct (_ <? _)%Z; exact H.
    - unfold takeBreak. destruct (_ && _); exact H.
    - unfold onCodeSaved. cbv zeta. cbn [developer set_developer].
      match goal with |- owned_ok (updateQuestProgress ?t ?a ?d) =>
        destruct (updateQuestProgress_core t a d)
          as ((_ & _ & _ & _ & _ & _ & A & B & _) & _) end.
      unfold owned_ok. rewrite A, B. exact H.
    - unfold onGitCommit. cbv zeta. cbn [developer set_developer].
      match goal with |- owned_ok (updateQuestProgress ?t ?a ?d) =>
        destruct (updateQuestProgress_core t a d)
          as ((_ & _ & _ & _ & _ & _ & A & B & _) & _) end.
      unfold owned_ok. rewrite A, B. exact H.
    - exact H.
    - unfold updateErrorCount. cbv zeta. cbn [developer].
      destruct (currentErrors - lastErrorCount m <? 0)%Z.
      + match goal with |- owned_ok (updateQuestProgress ?t ?a ?d) =>
          destruct (updateQuestProgress_core t a d)
            as ((_ & _ & _ & _ & _ & _ & A & B & _) & _) end.
        unfold owned_ok. rewrite A, B. exact H.
      + destruct (0 <? currentErrors - lastErrorCount m)%Z; exact H.
    - exact H.
    - unfold unlockSkill.
      destruct (find _ SKILLS) as [skill|] eqn:Ef; [|exact H].
      destruct (includes (skills (developer m)) skillId) eqn:Ei; [exact H|].
      destruct (_ <? _)%Z; [exact H|].
      destruct H as (N1 & N2 & I1 & I2).
      destruct (find_skill _ _ Ef) as (A & B).
      unfold owned_ok. cbn [fst developer set_developer skills inventory
        set_skills set_coffee].
      repeat split; try assumption.
      + apply NoDup_snoc; [exact N1|].
        intros Hin. apply includes_In in Hin. congruence.
      + apply incl_snoc; [exact I1|]. rewrite <- B. apply in_map, A.
    - unfold buyItem.
      destruct (find _ SHOP_ITEMS) as [item|] eqn:Ef; [|exact H].
      destruct (includes (inventory (developer m)) itemId) eqn:Ei;
        [exact H|].
      destruct (_ <? _)%Z; [exact H|].
      destruct H as (N1 & N2 & I1 & I2).
      destruct (find_item _ _ Ef) as (A & B).
      assert (K1 : NoDup (inventory (developer m) ++ [itemId])).
      { apply NoDup_snoc; [exact N2|].
        intros Hin. apply includes_In in Hin. congruence. }
      assert (K2 : incl (inventory (developer m) ++ [itemId])
                        (map it_id SHOP_ITEMS)).
      { apply incl_snoc; [exact I2|]. rewrite <- B. apply in_map, A. }
      destruct (it_type item), (it_emoji item); unfold owned_ok;
        cbn [fst developer set_developer skills inventory set_inventory
             set_coffee set_role];
        repeat split; assumption.
    - unfold equipItem. destruct (find _ SHOP_ITEMS) as [item|]; [|exact H].
      destruct (negb _); [exact H|].
      destruct (it_type item), (it_emoji item); exact H.
    - unfold challengeCompleted. exact H.
    - exact H. }
Qed.

Ltac frame_if :=
  repeat match goal with
         | |- context [if ?c then _ else _] => destruct c
         end;
  reflexivity.

Lemma updateQuestProgress_role (ty : QuestType) (amount : Q)
    (d : Developer) :
  role (updateQuestProgress ty amount d) = role d
  /\ name (updateQuestProgress ty amount d) = name d.
Proof. unfold updateQuestProgress. split; frame_if. Qed.

Lemma updateStats_role (w : World) (m : Manager) :
  role (developer (updateStats w m)) = role (developer m)
  /\ name (developer (updateStats w m)) = name (developer m).
Proof.
  unfold updateStats, deriveStats, checkDailyBonus, generateDailyQuests,
    beforeDailyBonus, trackCodingTime.
  cbn [developer set_developer role name set_lastUpdated set_mood
       set_health].
  destruct (updateQuestProgress_role QTime
              (hoursPassed w (developer m) * 60)
              (decayStats (hoursPassed w (developer m)) (lastErrorCount m)
                 (developer m))) as (R & N).
  assert (Dr : role (decayStats (hoursPassed w (developer m))
                       (lastErrorCount m) (developer m))
               = role (developer m))
    by (unfold decayStats; frame_if).
  assert (Dn : name (decayStats (hoursPassed w (developer m))
                       (lastErrorCount m) (developer m))
               = name (developer m))
    by (unfold decayStats; frame_if).
  split.
  - destruct (Qlt_bool _ 0.083);
      repeat match goal with
             | |- context [if ?c then _ else _] => destruct c
             end; cbn [role set_quests set_dailyQuestsCompleted
                       set_questStreak set_lastDailyBonus set_coffee
                       set_streak]; congruence.
  - destruct (Qlt_bool _ 0.083);
      repeat match goal with
             | |- context [if ?c then _ else _] => destruct c
             end; cbn [name set_quests set_dailyQuestsCompleted
                       set_questStreak set_lastDailyBonus set_coffee
                       set_streak]; congruence.
Qed.

Lemma role_ok_kept (d d' : Developer) :
  role d' = role d -> incl (inventory d) (inventory d') ->
  role_ok d -> role_ok d'.
Proof.
  intros Er Hi [H|(item & A & B & C & D)]; unfold role_ok; rewrite Er.
  - left. exact H.
  - right. exists item. repeat split; try assumption. apply Hi, D.
Qed.

Lemma role_ok_step (w : World) (o : Op) (m : Manager) :
  role_ok (developer m) -> role_ok (developer (step w o m)).
Proof.
  intros H. destruct o; unfold step.
  - destruct (updateStats_role w m) as (R & _).
    destruct (updateStats_owned w m) as (_ & B).
    apply (role_ok_kept (developer m)); [exact R | | exact H].
    rewrite B. apply incl_refl.
  - unfold resetProgress. destruct confirmed; [|exact H].
    destruct (updateStats_role w (set_developer (resetRecord w) m))
      as (R & _).
    left. rewrite R. reflexivity.
  - unfold giveCoffee. destruct (_ <? _)%Z; [exact H|].
    apply (role_ok_kept (developer m)); [reflexivity|apply incl_refl|exact H].
  - unfold takeBreak. destruct (_ && _); [exact H|].
    apply (role_ok_kept (developer m)); [reflexivity|apply incl_refl|exact H].
  - unfold onCodeSaved. cbv zeta. cbn [developer set_developer].
    match goal with |- role_ok (updateQuestProgress ?t ?a ?d) =>
      destruct (updateQuestProgress_role t a d) as (R & _);
      destruct (updateQuestProgress_core t a d)
        as ((_ & _ & _ & _ & _ & _ & _ & B & _) & _) end.
    apply (role_ok_kept (developer m)); [exact R | | exact H].
    rewrite B. apply incl_refl.
  - unfold onGitCommit. cbv zeta. cbn [developer set_developer].
    match goal with |- role_ok (updateQuestProgress ?t ?a ?d) =>
      destruct (updateQuestProgress_role t a d) as (R & _);
      destruct (updateQuestProgress_core t a d)
        as ((_ & _ & _ & _ & _ & _ & _ & B & _) & _) end.
    apply (role_ok_kept (developer m)); [exact R | | exact H].
    rewrite B. apply incl_refl.
  - exact H.
  - unfold updateErrorCount. cbv zeta. cbn [developer].
    destruct (currentErrors - lastErrorCount m <? 0)%Z.
    + match goal with |- role_ok (updateQuestProgress ?t ?a ?d) =>
        destruct (updateQuestProgress_role t a d) as (R & _);
        destruct (updateQuestProgress_core t a d)
          as ((_ & _ & _ & _ & _ & _ & _ & B & _) & _) end.
      apply (role_ok_kept (developer m)); [exact R | | exact H].
      rewrite B. apply incl_refl.
    + destruct (0 <? currentErrors - lastErrorCount m)%Z; exact H.
  - exact H.
  - unfold unlockSkill. destruct (find _ SKILLS); [|exact H].
    destruct (includes _ _); [exact H|].
    destruct (_ <? _)%Z; exact H.
  - unfold buyItem.
    destruct (find _ SHOP_ITEMS) as [item|] eqn:Ef; [|exact H].
    destruct (includes _ _); [exact H|].
    destruct (_ <? _)%Z; [exact H|].
    destruct (find_item _ _ Ef) as (A & B).
    destruct (it_type item) eqn:Et, (it_emoji item) as [e|] eqn:Ee;
      cbn [fst developer set_developer];
      try (apply (role_ok_kept (developer m));
           [reflexivity | apply incl_appl, incl_refl | exact H]).
    right. exists item. cbn [role inventory set_role set_inventory
      set_coffee]. repeat split; try assumption.
    apply in_or_app. right. left. symmetry. exact B.
  - unfold equipItem.
    destruct (find _ SHOP_ITEMS) as [item|] eqn:Ef; [|exact H].
    destruct (includes (inventory (developer m)) itemId) eqn:Ei;
      [|exact H]. cbn [negb].
    destruct (find_item _ _ Ef) as (A & B).
    destruct (it_type item) eqn:Et, (it_emoji item) as [e|] eqn:Ee;
      try exact H.
    right. exists item. cbn [fst developer set_developer role inventory
      set_role]. repeat split; try assumption.
    rewrite B. apply includes_In, Ei.
  - unfold challengeCompleted.
    apply (role_ok_kept (developer m)); [reflexivity|apply incl_refl|exact H].
  - apply (role_ok_kept (developer m)); [reflexivity|apply incl_refl|exact H].
Qed.

(** ** Breaks *)

Lemma takeBreak_step (m : Manager) :
  let d := developer m in
  let d' := developer (fst (takeBreak m)) in
  (energy d' == 100 \/ energy d' == energy d + 40)
  /\ (motivation d' == 100 \/ motivation d' == motivation d + 15)
  /\ (energy d == 100 -> energy d' == 100)
  /\ (motivation d == 100 -> motivation d' == 100).
Proof.
  intros d d'. subst d d'. unfold takeBreak.
  destruct (Qeq_bool (energy (developer m)) 100) eqn:E1;
    destruct (Qeq_bool (motivation (developer m)) 100) eqn:E2;
    cbn [andb fst developer set_developer energy motivation set_energy
         set_motivation set_focus];
    try apply Qeq_bool_iff in E1; try apply Qeq_bool_iff in E2.
  - repeat split; auto.
  - change (energy (addXP ?a ?d)) with (energy d).
    change (motivation (addXP ?a ?d)) with (motivation d).
    destruct (Q.min_spec 100 (energy (developer m) + 40)) as [(A & B)|(A & B)];
      destruct (Q.min_spec 100 (motivation (developer m) + 15))
        as [(C & D)|(C & D)];
      rewrite B, D; repeat split; auto; intros; try reflexivity; lra.
  - change (energy (addXP ?a ?d)) with (energy d).
    change (motivation (addXP ?a ?d)) with (motivation d).
    destruct (Q.min_spec 100 (energy (developer m) + 40)) as [(A & B)|(A & B)];
      destruct (Q.min_spec 100 (motivation (developer m) + 15))
        as [(C & D)|(C & D)];
      rewrite B, D; repeat split; auto; intros; try reflexivity; lra.
  - change (energy (addXP ?a ?d)) with (energy d).
    change (motivation (addXP ?a ?d)) with (motivation d).
    destruct (Q.min_spec 100 (energy (developer m) + 40)) as [(A & B)|(A & B)];
      destruct (Q.min_spec 100 (motivation (developer m) + 15))
        as [(C & D)|(C & D)];
      rewrite B, D; repeat split; auto; intros; try reflexivity; lra.
Qed.

Lemma breaks_S (n : nat) (m : Manager) :
  breaks (S n) m = fst (takeBreak (breaks n m)).
Proof. reflexivity. Qed.

Lemma breaks_fill (n : nat) (m : Manager) :
  (energy (developer (breaks n m)) == 100
   \/ energy (developer (breaks n m))
      == energy (developer m) + 40 * inject_Z (Z.of_nat n))
  /\ (motivation (developer (breaks n m)) == 100
      \/ motivation (developer (breaks n m))
         == motivation (developer m) + 15 * inject_Z (Z.of_nat n)).
Proof.
  induction n as [|n (IHe & IHm)].
  - split; right; simpl; ring.
  - rewrite breaks_S.
    destruct (takeBreak_step (breaks n m)) as (A & B & C & D).
    rewrite Nat2Z.inj_succ, <- Z.add_1_r, inject_Z_plus.
    split.
    + destruct IHe as [IHe|IHe]; [left; apply C, IHe|].
      destruct A as [A|A]; [left; exact A|].
      right. rewrite A, IHe. ring.
    + destruct IHm as [IHm|IHm]; [left; apply D, IHm|].
      destruct B as [B|B]; [left; exact B|].
      right. rewrite B, IHm. ring.
Qed.

Lemma breaks_capped (n : nat) (m : Manager) :
  energy (developer (breaks (S n) m)) <= 100
  /\ motivation (developer (breaks (S n) m)) <= 100.
Proof.
  rewrite breaks_S. generalize (breaks n m). intros m0.
  unfold takeBreak.
  destruct (Qeq_bool (energy (developer m0)) 100) eqn:E1;
    destruct (Qeq_bool (motivation (developer m0)) 100) eqn:E2;
    cbn [andb fst developer set_developer energy motivation set_energy
         set_motivation set_focus];
    try (split; apply Q.le_min_l).
  apply Qeq_bool_iff in E1. apply Qeq_bool_iff in E2.
  rewrite E1, E2. split; lra.
Qed.

(** X9: breaks cannot be taken for XP without end: after seven in a row
    energy and motivation are full and the next one is refused. *)
Theorem eighth_break_is_refused (m : Manager) :
  stats_nonneg (developer m) ->
  let m7 := breaks 7 m in
  energy (developer m7) == 100 /\ motivation (developer m7) == 100
  /\ success (snd (takeBreak m7)) = false
  /\ fst (takeBreak m7) = m7.
Proof.
  intros (He & _ & Hm) m7.
  pose proof (breaks_fill 7 m) as (A & B).
  pose proof (breaks_capped 6 m) as (L1 & L2).
  change (inject_Z (Z.of_nat 7)) with 7 in A, B.
  fold m7 in A, B, L1, L2. clearbody m7.
  assert (E : energy (developer m7) == 100)
    by (destruct A as [A|A]; [exact A | lra]).
  assert (M : motivation (developer m7) == 100)
    by (destruct B as [B|B]; [exact B | lra]).
  split; [exact E|]. split; [exact M|].
  unfold takeBreak.
  apply Qeq_bool_iff in E. apply Qeq_bool_iff in M. rewrite E, M.
  split; reflexivity.
Qed.

Lemma eighth_break_is_refused_witness :
  stats_nonneg (developer worn_today)
  /\ success (snd (takeBreak (breaks 7 worn_today))) = false.
Proof.
  assert (H1 : stats_nonneg (developer worn_today))
    by (unfold stats_nonneg; simpl; repeat split; lra).
  split; [exact H1|].
  exact (proj1 (proj2 (proj2 (eighth_break_is_refused worn_today H1)))).
Defined.

(** ** Spending and earning *)

(** X10: only coffee, skills and shop items cost anything: no other call
    (a reset apart) lowers the balance. *)
Theorem earning_never_costs (w : World) (o : Op) (m : Manager) :
  fair w -> nonneg_score o -> wallet_ok (developer m) ->
  is_reset o = false -> is_spending o = false ->
  (coffee (developer m) <= coffee (developer (step w o m)))%Z.
Proof.
  intros Hf Hsc Hw Hr Hsp.
  destruct o; try discriminate; unfold step.
  - apply updateStats_wallet; assumption.
  - unfold takeBreak. destruct (_ && _); simpl; lia.
  - unfold onCodeSaved. cbv zeta. cbn [developer set_developer].
    match goal with |- (_ <= coffee (updateQuestProgress ?t ?a ?d))%Z =>
      assert (Hd : wallet_ok d)
        by (destruct Hw as (A & B & C & D);
            unfold wallet_ok; simpl; repeat split; try assumption; lia);
      destruct (updateQuestProgress_wallet t a d Hd) as (_ & Hc) end.
    eapply Z.le_trans; [|exact Hc]. simpl. lia.
  - unfold onGitCommit. cbv zeta. cbn [developer set_developer].
    match goal with |- (_ <= coffee (updateQuestProgress ?t ?a ?d))%Z =>
      assert (Hd : wallet_ok d)
        by (destruct Hw as (A & B & C & D);
            unfold wallet_ok; simpl; repeat split; try assumption; lia);
      destruct (updateQuestProgress_wallet t a d Hd) as (_ & Hc) end.
    eapply Z.le_trans; [|exact Hc]. simpl. lia.
  - simpl. lia.
  - unfold updateErrorCount. cbv zeta. cbn [developer].
    destruct (currentErrors - lastErrorCount m <? 0)%Z.
    + match goal with |- (_ <= coffee (updateQuestProgress ?t ?a ?d))%Z =>
        assert (Hd : wallet_ok d)
          by (destruct Hw as (A & B & C & D);
              unfold wallet_ok; simpl; repeat split; assumption);
        destruct (updateQuestProgress_wallet t a d Hd) as (_ & Hc) end.
      eapply Z.le_trans; [|exact Hc]. simpl. lia.
    + destruct (0 <? currentErrors - lastErrorCount m)%Z; simpl; lia.
  - simpl. lia.
  - unfold equipItem. destruct (find _ SHOP_ITEMS) as [item|]; [|simpl; lia].
    destruct (negb _); [simpl; lia|].
    destruct (it_type item), (it_emoji item); simpl; lia.
  - simpl in Hsc. unfold challengeCompleted. cbv zeta.
    cbn [fst developer set_developer].
    assert (Hfl : (0 <= Qfloor (score / 10))%Z)
      by (apply Qfloor_nonneg; qconst; lra).
    remember (Qfloor (score / 10)) as k. simpl. lia.
  - simpl. lia.
Qed.

Lemma earning_never_costs_witness :
  fair w_noon /\ nonneg_score OpCodeSaved
  /\ wallet_ok (developer worn_with_quests)
  /\ is_reset OpCodeSaved = false /\ is_spending OpCodeSaved = false
  /\ (coffee (developer worn_with_quests)
      <= coffee (developer (step w_noon OpCodeSaved worn_with_quests)))%Z.
Proof.
  assert (H1 : fair w_noon) by apply Permutation_refl.
  assert (H2 : wallet_ok (developer worn_with_quests)).
  { unfold wallet_ok.
    split; [simpl; lia|]. split; [simpl; lia|].
    split; [vm_compute; intro H; discriminate H|].
    simpl. repeat apply Forall_cons; try apply Forall_nil; simpl; lia. }
  split; [exact H1|]. split; [exact I|]. split; [exact H2|].
  split; [reflexivity|]. split; [reflexivity|].
  exact (earning_never_costs w_noon OpCodeSaved worn_with_quests
           H1 I H2 eq_refl eq_refl).
Defined.

(** ** More on the tick *)

(** X11: two daily bonuses are at least 24 hours apart: after a tick
    that paid one, a tick less than 24 hours later pays none and leaves
    the streak alone. *)
Theorem bonuses_a_day_apart (w w2 : World) (m : Manager) :
  (oneDay <= now w - lastDailyBonus (developer m))%Z ->
  (now w2 - now w < oneDay)%Z ->
  let m1 := updateStats w m in
  let m2 := updateStats w2 m1 in
  lastDailyBonus (developer m1) = now w
  /\ lastDailyBonus (developer m2) = now w
  /\ streak (developer m2) = streak (developer m1)
  /\ coffee (developer m2) = coffee (beforeDailyBonus w2 m1)
  /\ quests (developer m2) = quests (beforeDailyBonus w2 m1).
Proof.
  intros Hdue Hnear m1 m2.
  destruct (updateStats_bonus w m Hdue) as (_ & _ & B3 & _).
  fold m1 in B3.
  destruct (updateStats_core w2 m1) as (_ & _ & _ & K4 & K5 & _).
  assert (Hidle : (now w2 - lastDailyBonus (beforeDailyBonus w2 m1)
                   < oneDay)%Z) by (rewrite K5, B3; exact Hnear).
  pose proof (checkDailyBonus_idle w2 _ Hidle) as E.
  assert (L : lastDailyBonus (developer m2)
              = lastDailyBonus (checkDailyBonus w2 (beforeDailyBonus w2 m1)))
    by reflexivity.
  assert (S : streak (developer m2)
              = streak (checkDailyBonus w2 (beforeDailyBonus w2 m1)))
    by reflexivity.
  assert (C : coffee (developer m2)
              = coffee (checkDailyBonus w2 (beforeDailyBonus w2 m1)))
    by reflexivity.
  assert (Qs : quests (developer m2)
              = quests (checkDailyBonus w2 (beforeDailyBonus w2 m1)))
    by reflexivity.
  rewrite E in L, S, C, Qs.
  split; [exact B3|]. split; [rewrite L, K5; exact B3|].
  split; [rewrite S; exact K4|]. split; assumption.
Qed.

Lemma bonuses_a_day_apart_witness :
  (oneDay <= now w_noon - lastDailyBonus (developer worn_yesterday))%Z
  /\ (now w_hour_later - now w_noon < oneDay)%Z
  /\ lastDailyBonus
       (developer (updateStats w_hour_later (updateStats w_noon
                                               worn_yesterday)))
     = now w_noon.
Proof.
  assert (H1 : (oneDay
                <= now w_noon - lastDailyBonus (developer worn_yesterday))%Z)
    by (vm_compute; intro H; discriminate H).
  assert (H2 : (now w_hour_later - now w_noon < oneDay)%Z)
    by (vm_compute; reflexivity).
  split; [exact H1|]. split; [exact H2|].
  exact (proj1 (proj2 (bonuses_a_day_apart w_noon w_hour_later
                         worn_yesterday H1 H2))).
Defined.

Lemma away_gap (w : World) (d : Developer) :
  (298800 <= now w - lastUpdated d)%Z ->
  Qlt_bool (hoursPassed w d) 0.083 = false.
Proof.
  intros H. unfold Qlt_bool.
  assert (E : Qle_bool 0.083 (hoursPassed w d) = true).
  { apply Qle_bool_iff. unfold hoursPassed.
    assert (H1 : inject_Z 298800 <= inject_Z (now w - lastUpdated d))
      by (rewrite <- Zle_Qle; exact H).
    change (inject_Z 298800) with 298800 in H1.
    qconst. lra. }
  rewrite E. reflexivity.
Qed.

(** X12: time away from the editor is not counted: a tick after a gap of
    0.083 hours (298.8 seconds) or more, with no bonus due, leaves quests,
    coffee and streaks as they were. *)
Theorem away_time_is_not_counted (w : World) (m : Manager) :
  (298800 <= now w - lastUpdated (developer m))%Z ->
  (now w - lastDailyBonus (developer m) < oneDay)%Z ->
  let d := developer m in
  let d' := developer (updateStats w m) in
  quests d' = quests d /\ coffee d' = coffee d
  /\ questStreak d' = questStreak d
  /\ dailyQuestsCompleted d' = dailyQuestsCompleted d
  /\ streak d' = streak d.
Proof.
  intros Hgap Hidle d d'.
  assert (E1 : beforeDailyBonus w m
               = decayStats (hoursPassed w d) (lastErrorCount m) d).
  { unfold beforeDailyBonus, trackCodingTime. fold d.
    rewrite (away_gap w d Hgap). reflexivity. }
  destruct (decayStats_frame (hoursPassed w d) (lastErrorCount m) d)
    as (_ & _ & _ & D1 & _ & _ & D2 & D3 & D4 & D5 & D6 & _).
  assert (E2 : checkDailyBonus w (beforeDailyBonus w m) = beforeDailyBonus w m).
  { apply checkDailyBonus_idle. rewrite E1, D3. exact Hidle. }
  assert (Q1 : quests d' = quests (checkDailyBonus w (beforeDailyBonus w m)))
    by reflexivity.
  assert (Q2 : coffee d' = coffee (checkDailyBonus w (beforeDailyBonus w m)))
    by reflexivity.
  assert (Q3 : questStreak d'
               = questStreak (checkDailyBonus w (beforeDailyBonus w m)))
    by reflexivity.
  assert (Q4 : dailyQuestsCompleted d'
               = dailyQuestsCompleted
                   (checkDailyBonus w (beforeDailyBonus w m)))
    by reflexivity.
  assert (Q5 : streak d' = streak (checkDailyBonus w (beforeDailyBonus w m)))
    by reflexivity.
  rewrite E2, E1 in Q1, Q2, Q3, Q4, Q5.
  repeat split; congruence.
Qed.

Lemma away_time_is_not_counted_witness :
  (298800 <= now w_hour_later - lastUpdated (developer worn_with_quests))%Z
  /\ (now w_hour_later - lastDailyBonus (developer worn_with_quests)
      < oneDay)%Z
  /\ quests (developer (updateStats w_hour_later worn_with_quests))
     = quests (developer worn_with_quests).
Proof.
  assert (H1 : (298800 <= now w_hour_later
                          - lastUpdated (developer worn_with_quests))%Z)
    by (vm_compute; intro H; discriminate H).
  assert (H2 : (now w_hour_later
                - lastDailyBonus (developer worn_with_quests) < oneDay)%Z)
    by (vm_compute; reflexivity).
  split; [exact H1|]. split; [exact H2|].
  exact (proj1 (away_time_is_not_counted w_hour_later worn_with_quests
                  H1 H2)).
Defined.

Lemma Qlt_bool_iff (x y : Q) : Qlt_bool x y = true <-> x < y.
Proof.
  unfold Qlt_bool. rewrite negb_true_iff. split.
  - intros H. apply Qnot_le_lt. intros Hle.
    apply Qle_bool_iff in Hle. congruence.
  - intros H. destruct (Qle_bool y x) eqn:E; [|reflexivity].
    apply Qle_bool_iff in E. lra.
Qed.

Ltac mood_case :=
  repeat split; intros; try discriminate; try assumption;
  try contradiction; try lra; auto.

(** X13: the mood a tick leaves: asleep by night whatever the stats; by
    day burnt out exactly when health is under 30, and never burnt out,
    tired or stressed when the three stats are at least 30. *)
Theorem mood_after_tick (w : World) (m : Manager) :
  let d' := developer (updateStats w m) in
  ((22 <= hour w)%Z \/ (hour w < 6)%Z -> mood d' = sleeping)
  /\ ((6 <= hour w < 22)%Z ->
      mood d' <> sleeping
      /\ (mood d' = burnt_out <-> health d' < 30)
      /\ (30 <= energy d' -> 30 <= motivation d' -> 30 <= focus d' ->
          mood d' = caffeinated \/ mood d' = productive
          \/ mood d' = neutral)
      /\ (mood d' = caffeinated -> (80 < coffee d')%Z)
      /\ (mood d' = productive -> 70 < motivation d')).
Proof.
  intros d'.
  set (x := set_health
              ((energy d' + motivation d' + focus d') / 3)
              (checkDailyBonus w (beforeDailyBonus w m))).
  assert (Em : mood d' = calculateMood w x) by reflexivity.
  assert (Eh : health x = health d') by reflexivity.
  assert (Ee : energy x = energy d') by reflexivity.
  assert (Ef : focus x = focus d') by reflexivity.
  assert (Eo : motivation x = motivation d') by reflexivity.
  assert (Ec : coffee x = coffee d') by reflexivity.
  assert (Hmean : health d' = (energy d' + motivation d' + focus d') / 3)
    by reflexivity.
  rewrite Em. unfold calculateMood. rewrite Eh, Ee, Ef, Eo, Ec.
  clearbody x d'. clear Em Eh Ee Ef Eo Ec x.
  split.
  - intros Hn.
    destruct (Z.leb_spec 22 (hour w)); destruct (Z.ltb_spec (hour w) 6);
      simpl; try reflexivity; lia.
  - intros Hday.
    destruct (Z.leb_spec 22 (hour w)); [lia|].
    destruct (Z.ltb_spec (hour w) 6); [lia|]. cbn [orb].
    destruct (Qlt_bool (health d') 30) eqn:Hh.
    { apply Qlt_bool_iff in Hh. mood_case.
      exfalso. rewrite Hmean in Hh. revert Hh. qconst. intros Hh. lra. }
    assert (Hh' : ~ health d' < 30)
      by (intros A; apply Qlt_bool_iff in A; congruence).
    destruct (Qlt_bool (energy d') 30) eqn:He;
      [apply Qlt_bool_iff in He; mood_case|].
    destruct (Qlt_bool (focus d') 30) eqn:Hf;
      [apply Qlt_bool_iff in Hf; mood_case|].
    destruct (Z.ltb_spec 80 (coffee d')); [mood_case|].
    destruct (Qlt_bool 70 (motivation d')) eqn:Hm;
      [apply Qlt_bool_iff in Hm; mood_case|].
    mood_case.
Qed.

(** ** Diagnostics *)

Lemma getErrorCount_from (l : list (string * list Severity)) (acc : Z) :
  fold_left
    (fun acc entry =>
       (acc + Z.of_nat (List.length (filter isError (snd entry))))%Z)
    l acc
  = (acc + Z.of_nat (List.length (filter isError (List.concat (map snd l)))))%Z.
Proof.
  revert acc. induction l as [|(uri, diags) l IH]; intros acc; simpl.
  - lia.
  - rewrite IH, filter_app, length_app, Nat2Z.inj_add. lia.
Qed.

(** X14: the count reported to the engine is the number of diagnostics of
    severity Error over all files; it is never negative, and it is zero
    exactly when there is no such diagnostic. *)
Theorem getErrorCount_counts (l : list (string * list Severity)) :
  getErrorCount l
  = Z.of_nat (List.length (filter isError (List.concat (map snd l))))
  /\ (0 <= getErrorCount l)%Z
  /\ (getErrorCount l = 0%Z <->
      forall uri diags sev,
        In (uri, diags) l -> In sev diags -> isError sev = false)
  /\ forall m : Manager,
       lastErrorCount (onDidChangeDiagnostics l m) = getErrorCount l.
Proof.
  assert (E : getErrorCount l
              = Z.of_nat (List.length (filter isError (List.concat (map snd l)))))
    by (unfold getErrorCount; rewrite getErrorCount_from; lia).
  split; [exact E|]. split; [rewrite E; lia|]. split; [|reflexivity].
  rewrite E. split.
  - intros H uri diags sev Hin Hs.
    destruct (isError sev) eqn:Ev; [|reflexivity]. exfalso.
    assert (Hc : In sev (filter isError (List.concat (map snd l)))).
    { apply filter_In. split; [|exact Ev].
      apply in_concat. exists diags. split; [|exact Hs].
      change diags with (snd (uri, diags)). apply in_map, Hin. }
    destruct (filter isError (List.concat (map snd l))); [destruct Hc|].
    simpl in H. lia.
  - intros H.
    destruct (filter isError (List.concat (map snd l))) as [|sev rest] eqn:Ef;
      [reflexivity|]. exfalso.
    assert (Hc : In sev (filter isError (List.concat (map snd l))))
      by (rewrite Ef; left; reflexivity).
    apply filter_In in Hc. destruct Hc as (Hc & Ev).
    apply in_concat in Hc. destruct Hc as (diags & Hd & Hs).
    apply in_map_iff in Hd. destruct Hd as ((uri, diags') & Ed & Hin).
    simpl in Ed. subst diags'.
    rewrite (H uri diags sev Hin Hs) in Ev. discriminate.
Qed.

(** X15: reporting the same count again does nothing, and new errors are
    never paid for. *)
Theorem error_reports (c : Z) (m : Manager) :
  updateErrorCount c (updateErrorCount c m) = updateErrorCount c m
  /\ lastErrorCount (updateErrorCount c m) = c
  /\ (c = lastErrorCount m -> developer (updateErrorCount c m) = developer m)
  /\ ((lastErrorCount m < c)%Z ->
      let d := developer m in
      let d' := developer (updateErrorCount c m) in
      xp d' = xp d /\ level d' = level d /\ coffee d' = coffee d
      /\ quests d' = quests d /\ energy d' = energy d
      /\ motivation d' = motivation d
      /\ focus d'
         = Qmax 0 (focus d - inject_Z (c - lastErrorCount m) * 0.5)).
Proof.
  assert (Hsame : forall m0, lastErrorCount m0 = c ->
                  updateErrorCount c m0 = mkManager (developer m0) c).
  { intros m0 E. unfold updateErrorCount. rewrite E, Z.sub_diag.
    reflexivity. }
  split; [|split; [reflexivity|split]].
  - rewrite (Hsame (updateErrorCount c m)) by reflexivity.
    unfold updateErrorCount. reflexivity.
  - intros E. rewrite (Hsame m) by (symmetry; exact E). reflexivity.
  - intros Hup d d'. subst d d'. unfold updateErrorCount.
    destruct (Z.ltb_spec (c - lastErrorCount m) 0); [lia|].
    destruct (Z.ltb_spec 0 (c - lastErrorCount m)); [|lia].
    repeat split.
Qed.

(** ** Commits *)

Lemma opt_string_neqb_refl (a : option string) : opt_string_neqb a a = false.
Proof.
  destruct a as [s|]; simpl; [|reflexivity].
  rewrite String.eqb_refl. reflexivity.
Qed.

(** X16: a HEAD is rewarded when it is first seen, not when the repository
    reports it again, and a missing HEAD is never rewarded. *)
Theorem commits_rewarded_once (h : option string)
    (st : option string * Manager) :
  onRepoChange h (onRepoChange h st) = onRepoChange h st
  /\ (truthy_string h = false -> onRepoChange h st = st)
  /\ onRepoChange (fst st) st = st
  /\ (truthy_string h = true -> h <> fst st ->
      onRepoChange h st = (h, onGitCommit (snd st))).
Proof.
  destruct st as (lastHead, m). cbn [fst snd].
  assert (Hstay : forall a k, onRepoChange a (a, k) = (a, k)).
  { intros a k. unfold onRepoChange.
    rewrite opt_string_neqb_refl, andb_false_r. reflexivity. }
  split; [|split; [|split]].
  - unfold onRepoChange at 2.
    destruct (truthy_string h && opt_string_neqb h lastHead) eqn:E.
    + rewrite Hstay. unfold onRepoChange. rewrite E. reflexivity.
    + reflexivity.
  - intros E. unfold onRepoChange. rewrite E. reflexivity.
  - apply Hstay.
  - intros E Hne. unfold onRepoChange. rewrite E.
    assert (N : opt_string_neqb h lastHead = true).
    { destruct h as [a|], lastHead as [b|]; simpl; try reflexivity;
        try congruence.
      destruct (String.eqb_spec a b); [congruence | reflexivity]. }
    rewrite N. reflexivity.
Qed.

(** ** Mini-game payouts *)

Lemma challenge_coffee (s : Z) (m : Manager) :
  snd (challengeCompleted (inject_Z s) m) = (s / 10)%Z
  /\ coffee (developer (fst (challengeCompleted (inject_Z s) m)))
     = (coffee (developer m) + s / 10)%Z.
Proof.
  assert (E : Qfloor (inject_Z s / 10) = (s / 10)%Z)
    by (symmetry; apply (Zdiv_Qdiv s 10)).
  unfold challengeCompleted. cbv zeta. cbn [fst snd developer set_developer].
  change (coffee (addXP ?a ?d)) with (coffee d).
  cbn [coffee set_motivation set_coffee]. rewrite E. split; reflexivity.
Qed.

(** X17: a finished Speed Test scores between 20 and 100 and pays between 2
    and 10 coffee, never more for a slower run; a won Boss Battle pays
    between 30 and 52. *)
Theorem mini_game_payouts (m : Manager) (timeTaken time : Z) :
  (0 <= timeTaken)%Z -> (0 < time <= 45)%Z ->
  let speed := challengeCompleted (inject_Z (speedTestScore timeTaken)) m in
  let boss := challengeCompleted (inject_Z (bossBattleScore time)) m in
  (20 <= speedTestScore timeTaken <= 100)%Z
  /\ (2 <= snd speed <= 10)%Z
  /\ coffee (developer (fst speed)) = (coffee (developer m) + snd speed)%Z
  /\ (forall later : Z, (timeTaken <= later)%Z ->
        (speedTestScore later <= speedTestScore timeTaken)%Z)
  /\ ((8000 <= timeTaken)%Z -> speedTestScore timeTaken = 20%Z)
  /\ (305 <= bossBattleScore time <= 525)%Z
  /\ (30 <= snd boss <= 52)%Z
  /\ coffee (developer (fst boss)) = (coffee (developer m) + snd boss)%Z.
Proof.
  intros Ht Hb speed boss. subst speed boss.
  destruct (challenge_coffee (speedTestScore timeTaken) m) as (S1 & S2).
  destruct (challenge_coffee (bossBattleScore time) m) as (B1 & B2).
  rewrite S1, S2, B1, B2.
  assert (Hq : (0 <= timeTaken / 100)%Z) by (apply Z.div_pos; lia).
  unfold speedTestScore, bossBattleScore.
  assert (Hs : (20 <= Z.max (100 - timeTaken / 100) 20 <= 100)%Z) by lia.
  assert (Hbs : (305 <= 300 + time * 5 <= 525)%Z) by lia.
  split; [exact Hs|].
  split.
  { clear - Hs. Z.div_mod_to_equations. lia. }
  split; [reflexivity|].
  split.
  { intros later Hl.
    assert ((timeTaken / 100 <= later / 100)%Z)
      by (apply Z.div_le_mono; lia). lia. }
  split.
  { intros H8.
    assert ((80 <= timeTaken / 100)%Z)
      by (apply Z.div_le_lower_bound; lia). lia. }
  split; [exact Hbs|].
  split; [|reflexivity].
  clear - Hbs. Z.div_mod_to_equations. lia.
Qed.

Lemma mini_game_payouts_witness :
  (0 <= 2500)%Z /\ (0 < 30 <= 45)%Z
  /\ (20 <= speedTestScore 2500 <= 100)%Z.
Proof.
  assert (H1 : (0 <= 2500)%Z) by lia.
  assert (H2 : (0 < 30 <= 45)%Z) by lia.
  split; [exact H1|]. split; [exact H2|].
  exact (proj1 (mini_game_payouts worn_today 2500 30 H1 H2)).
Defined.

(** ** Modifiers and active time *)

Lemma Qmax0_mono (x y : Q) : x <= y -> Qmax 0 x <= Qmax 0 y.
Proof. intros H. apply Q.max_le_compat_l, H. Qed.

(** X18: the Ergo Chair, the Mech Keyboard and Iron Focus never leave
    less of their stat after the decay than going without would. *)
Theorem modifiers_slow_decay (h : Q) (errors : Z) (d plain : Developer) :
  0 <= h ->
  energy plain == energy d -> motivation plain == motivation d ->
  focus plain == focus d ->
  (includes (inventory d) "furn_chair" = true ->
   energy (decayStats h errors plain) <= energy (decayStats h errors d))
  /\ (includes (inventory d) "acc_keyboard" = true ->
      motivation (decayStats h errors plain)
      <= motivation (decayStats h errors d))
  /\ (includes (skills d) "iron_focus" = true ->
      focus (decayStats h errors plain) <= focus (decayStats h errors d)).
Proof.
  intros Hh Ee Em Ef.
  assert (L1 : forall i, h * (4 * 0.85)
                         <= h * (if includes i "furn_chair"
                                 then 4 * 0.85 else 4))
    by (intros i; destruct (includes i "furn_chair"); nra).
  assert (L2 : forall i, h * (2 * 0.85)
                         <= h * (if includes i "acc_keyboard"
                                 then 2 * 0.85 else 2))
    by (intros i; destruct (includes i "acc_keyboard"); nra).
  assert (L3 : forall i, h * 2.1
                         <= h * (if includes i "iron_focus" then 2.1 else 3))
    by (intros i; destruct (includes i "iron_focus"); nra).
  pose proof (L1 (inventory plain)) as P1.
  pose proof (L2 (inventory plain)) as P2.
  pose proof (L3 (skills plain)) as P3.
  unfold decayStats.
  destruct (0 <? errors)%Z;
    cbn [energy motivation focus set_energy set_motivation set_focus
         inventory skills];
    (split; [|split]); intros Hown; rewrite Hown;
    apply Qmax0_mono;
    first [ lra
          | match goal with
            | |- Qmax 0 ?a - ?s <= Qmax 0 ?b - ?s =>
                assert (M : Qmax 0 a <= Qmax 0 b)
                  by (apply Qmax0_mono; lra);
                lra
            end ].
Qed.

Lemma modifiers_slow_decay_witness :
  0 <= 1 /\ energy (worn 0) == energy worn_seated
  /\ motivation (worn 0) == motivation worn_seated
  /\ focus (worn 0) == focus worn_seated
  /\ energy (decayStats 1 0 (worn 0)) <= energy (decayStats 1 0 worn_seated).
Proof.
  assert (H1 : 0 <= 1) by lra.
  assert (H2 : energy (worn 0) == energy worn_seated) by reflexivity.
  assert (H3 : motivation (worn 0) == motivation worn_seated)
    by reflexivity.
  assert (H4 : focus (worn 0) == focus worn_seated) by reflexivity.
  split; [exact H1|]. split; [exact H2|]. split; [exact H3|].
  split; [exact H4|].
  exact (proj1 (modifiers_slow_decay 1 0 worn_seated (worn 0) H1 H2 H3 H4)
           eq_refl).
Defined.

Lemma active_gap (w : World) (d : Developer) :
  (now w - lastUpdated d < 298800)%Z ->
  Qlt_bool (hoursPassed w d) 0.083 = true.
Proof.
  intros H. apply Qlt_bool_iff. unfold hoursPassed.
  assert (H1 : inject_Z (now w - lastUpdated d) < inject_Z 298800)
    by (rewrite <- Zlt_Qlt; exact H).
  change (inject_Z 298800) with 298800 in H1.
  qconst. lra.
Qed.

(** X19: time at the editor is counted: a tick less than 298.8 seconds
    after the last one, with no bonus due, advances the time quests by the
    minutes elapsed and touches no other quest. *)
Theorem active_time_is_counted (w : World) (m : Manager) :
  (now w - lastUpdated (developer m) < 298800)%Z ->
  (now w - lastDailyBonus (developer m) < oneDay)%Z ->
  let d := developer m in
  let minutes := hoursPassed w d * 60 in
  minutes == inject_Z (now w - lastUpdated d) / 60000
  /\ Forall2 (quest_advanced QTime minutes) (quests d)
             (quests (developer (updateStats w m))).
Proof.
  intros Hgap Hidle d minutes. split.
  - unfold minutes, hoursPassed. fold d.
    change (inject_Z (1000 * 60 * 60)) with 3600000. field.
  - assert (E1 : beforeDailyBonus w m
                 = updateQuestProgress QTime minutes
                     (decayStats (hoursPassed w d) (lastErrorCount m) d)).
    { unfold beforeDailyBonus, trackCodingTime. fold d.
      rewrite (active_gap w d Hgap). reflexivity. }
    destruct (decayStats_frame (hoursPassed w d) (lastErrorCount m) d)
      as (_ & _ & _ & _ & _ & _ & _ & D3 & D4 & _).
    destruct (updateQuestProgress_core QTime minutes
                (decayStats (hoursPassed w d) (lastErrorCount m) d))
      as (_ & _ & U).
    assert (E2 : checkDailyBonus w (beforeDailyBonus w m)
                 = beforeDailyBonus w m).
    { apply checkDailyBonus_idle. rewrite E1, U, D3. exact Hidle. }
    assert (Q1 : quests (developer (updateStats w m))
                 = quests (checkDailyBonus w (beforeDailyBonus w m)))
      by reflexivity.
    rewrite Q1, E2, E1, updateQuestProgress_quests, D4.
    apply forEachQuest_advanced.
Qed.

Lemma active_time_is_counted_witness :
  (now w_minute_later - lastUpdated (developer worn_with_quests)
   < 298800)%Z
  /\ (now w_minute_later - lastDailyBonus (developer worn_with_quests)
      < oneDay)%Z
  /\ Forall2
       (quest_advanced QTime
          (hoursPassed w_minute_later (developer worn_with_quests) * 60))
       (quests (developer worn_with_quests))
       (quests (developer (updateStats w_minute_later worn_with_quests))).
Proof.
  assert (H1 : (now w_minute_later
                - lastUpdated (developer worn_with_quests) < 298800)%Z)
    by (vm_compute; reflexivity).
  assert (H2 : (now w_minute_later
                - lastDailyBonus (developer worn_with_quests) < oneDay)%Z)
    by (vm_compute; reflexivity).
  split; [exact H1|]. split; [exact H2|].
  exact (proj2 (active_time_is_counted w_minute_later worn_with_quests
                  H1 H2)).
Defined.

(** ** A fresh engine, whatever it is asked *)

Lemma run_invariant (P : Developer -> Prop) (ok : World -> Op -> Prop) :
  (forall w o m, ok w o -> P (developer m) -> P (developer (step w o m))) ->
  forall calls m,
    Forall (fun c => ok (fst c) (snd c)) calls ->
    P (developer m) -> P (developer (run calls m)).
Proof.
  intros Hstep calls. induction calls as [|(w, o) calls IH]; intros m Hok Hm;
    simpl; [exact Hm|].
  inversion Hok; subst. apply IH; [assumption|].
  apply Hstep; assumption.
Qed.

(** X20: in an engine started without a save the balance never goes
    negative, whatever calls follow, as long as the shuffles are
    reorderings and no game reports a negative score. *)
Theorem fresh_engine_wallet (w0 : World) (calls : list (World * Op)) :
  fair w0 ->
  Forall (fun c => fair (fst c) /\ nonneg_score (snd c)) calls ->
  let d := developer (run calls (newManager w0 None)) in
  (0 <= coffee d)%Z /\ (0 <= streak d)%Z
  /\ (0 <= or0_opt (questStreak d))%Z
  /\ Forall (fun q => (0 <= q_reward q)%Z) (quests d).
Proof.
  intros H0 Hc d.
  apply (run_invariant wallet_ok
           (fun w o => fair w /\ nonneg_score o)).
  - intros w o m (A & B). apply wallet_ok_step; assumption.
  - exact Hc.
  - apply wallet_ok_new, H0.
Qed.

Lemma fresh_engine_wallet_witness :
  fair w_noon
  /\ Forall (fun c => fair (fst c) /\ nonneg_score (snd c)) first_session
  /\ (0 <= coffee (developer (run first_session
                                (newManager w_noon None))))%Z.
Proof.
  assert (H1 : fair w_noon) by apply Permutation_refl.
  assert (H2 : Forall (fun c => fair (fst c) /\ nonneg_score (snd c))
                 first_session).
  { unfold first_session.
    repeat (apply Forall_cons;
            [split; [apply Permutation_refl | simpl; try exact I; lra]|]).
    apply Forall_nil. }
  split; [exact H1|]. split; [exact H2|].
  exact (proj1 (fresh_engine_wallet w_noon first_session H1 H2)).
Defined.

(** X21: in an engine started without a save the XP stays normalised:
    after any calls, [level >= 1] and [0 <= xp < level * 100]. *)
Theorem fresh_engine_xp (w0 : World) (calls : list (World * Op)) :
  Forall (fun c => nonneg_score (snd c)) calls ->
  let d := developer (run calls (newManager w0 None)) in
  (1 <= level d)%Z /\ (0 <= xp d < level d * 100)%Z.
Proof.
  intros Hc d.
  apply (run_invariant (fun d => stats_nonneg d /\ xp_ok d)
           (fun w o => nonneg_score o)).
  - intros w o m A (B & C).
    split; [apply stats_nonneg_step, B | apply xp_ok_step; assumption].
  - exact Hc.
  - split; [apply stats_nonneg_updateStats|].
    destruct (updateStats_same_core w0 (mkManager (loadDeveloper w0 None) 0))
      as (E1 & E2).
    unfold newManager, xp_ok. rewrite E1, E2. simpl. lia.
Qed.

Lemma fresh_engine_xp_witness :
  Forall (fun c => nonneg_score (snd c)) first_session
  /\ (1 <= level (developer (run first_session
                               (newManager w_noon None))))%Z.
Proof.
  assert (H1 : Forall (fun c => nonneg_score (snd c)) first_session).
  { unfold first_session.
    repeat (apply Forall_cons; [simpl; try exact I; lra|]).
    apply Forall_nil. }
  split; [exact H1|].
  exact (proj1 (fresh_engine_xp w_noon first_session H1)).
Defined.

(** X22: in an engine started without a save nothing is ever owned twice
    and nothing comes from outside the catalogs, so there are at most 3
    skills and 4 items. *)
Theorem fresh_engine_purchases (w0 : World) (calls : list (World * Op)) :
  let d := developer (run calls (newManager w0 None)) in
  NoDup (skills d) /\ NoDup (inventory d)
  /\ incl (skills d) (map sk_id SKILLS)
  /\ incl (inventory d) (map it_id SHOP_ITEMS)
  /\ (List.length (skills d) <= 3)%nat
  /\ (List.length (inventory d) <= 4)%nat.
Proof.
  intros d.
  assert (G : owned_ok d).
  { apply (run_invariant owned_ok (fun _ _ => True)).
    - intros w o m _. apply owned_ok_step.
    - apply Forall_forall. intros; exact I.
    - destruct (updateStats_owned w0 (mkManager (loadDeveloper w0 None) 0))
        as (A & B).
      unfold newManager, owned_ok. rewrite A, B. simpl.
      repeat split; try apply NoDup_nil; intros x []. }
  destruct G as (N1 & N2 & I1 & I2).
  repeat split; try assumption.
  - exact (NoDup_incl_length N1 I1).
  - exact (NoDup_incl_length N2 I2).
Qed.

(** X23: in an engine started without a save the avatar shows the default
    face or the emoji of a skin that is in the inventory. *)
Theorem fresh_engine_skin (w0 : World) (calls : list (World * Op)) :
  role_ok (developer (run calls (newManager w0 None))).
Proof.
  apply (run_invariant role_ok (fun _ _ => True)).
  - intros w o m _. apply role_ok_step.
  - apply Forall_forall. intros; exact I.
  - destruct (updateStats_role w0 (mkManager (loadDeveloper w0 None) 0))
      as (R & _).
    left. unfold newManager. rewrite R. reflexivity.
Qed.

(** X24: whatever was saved, even stats below zero, no stat of a running
    engine is negative: the constructor's tick clamps them, and no call
    takes one below zero afterwards. *)
Theorem loaded_engine_stats_nonneg (w0 : World) (saved : option SavedState)
    (calls : list (World * Op)) :
  let d := developer (run calls (newManager w0 saved)) in
  0 <= energy d /\ 0 <= focus d /\ 0 <= motivation d.
Proof.
  intros d.
  apply (run_invariant stats_nonneg (fun _ _ => True)).
  - intros w o m _. apply stats_nonneg_step.
  - apply Forall_forall. intros; exact I.
  - apply stats_nonneg_updateStats.
Qed.
